(** * samcli/local/docker/manager.py: the container manager

    A shallow embedding of [ContainerManager] and of the helpers it uses.
    Python exceptions are values of the type [exn]; a call returns or raises
    ([outcome]), and what it does to the outside world (the Docker client,
    the container, the stream writer, the logger) is recorded, in order, in
    a trace of [effect]s. *)

From Stdlib Require Import ZArith String Ascii List Bool Lia SpecFloat.
From stdpp Require Import gmap strings pretty.

Local Open Scope string_scope.
Local Open Scope Z_scope.

(** ** Python exceptions, outcomes and the trace of effects *)

Module Py.

(** The exception classes the module meets. [ImageNotFound], [NotFound] and
    [APIError] are those of [docker.errors], where
    [ImageNotFound <: NotFound <: APIError]; [OtherClass] is any class
    unrelated to the ones listed. *)
Inductive exn_class :=
| ValueError
| KeyError
| ZeroDivisionError
| OverflowError
| APIError
| NotFound
| ImageNotFound
| DockerImagePullFailedException
| OtherClass (name : string).

(** An exception: its class and its message ([str(ex)]; for a [KeyError],
    the key that was not found); [ExnFrom] is one raised by
    [raise ... from cause], which sets its [__cause__]. *)
Inductive exn :=
| Exn (cls : exn_class) (msg : string)
| ExnFrom (cls : exn_class) (msg : string) (cause : exn).

Definition exn_cls (e : exn) : exn_class :=
  match e with Exn c _ | ExnFrom c _ _ => c end.
Definition exn_str (e : exn) : string :=
  match e with Exn _ m | ExnFrom _ m _ => m end.
Definition exn_cause (e : exn) : option exn :=
  match e with Exn _ _ => None | ExnFrom _ _ c => Some c end.

(** [isinstance(e, c)] for the classes above: what an [except c] clause
    catches. *)
Definition subclass (c d : exn_class) : bool :=
  match d, c with
  | ValueError, ValueError => true
  | KeyError, KeyError => true
  | ZeroDivisionError, ZeroDivisionError => true
  | OverflowError, OverflowError => true
  | APIError, (APIError | NotFound | ImageNotFound) => true
  | NotFound, (NotFound | ImageNotFound) => true
  | ImageNotFound, ImageNotFound => true
  | DockerImagePullFailedException, DockerImagePullFailedException => true
  | OtherClass n, OtherClass m => String.eqb n m
  | _, _ => false
  end.

Definition isinstance (e : exn) (c : exn_class) : bool := subclass (exn_cls e) c.
Arguments isinstance : simpl never.

Inductive outcome (A : Type) :=
| Returned (a : A)
| Raised (e : exn).
Arguments Returned {A} a.
Arguments Raised {A} e.

(** One line of the pull stream (a decoded JSON object): ["status"] and
    ["id"] are present in every line, ["progressDetail"] carries
    ["current"] and ["total"] where it is present. *)
Record progress_detail := { pd_current : Z; pd_total : Z }.
Record line := { status : string; id : string; progressDetail : option progress_detail }.

(** What a call does to its collaborators. *)
Inductive effect :=
| EImagesGet (image_name : string)           (* docker_client.images.get *)
| EApiPull (image_name : string)             (* docker_client.api.pull *)
| EWrite (text : string)                     (* stream_writer.write *)
| ELogInfo (msg : string)                    (* LOG.info *)
| ELogDebug (msg : string)                   (* LOG.debug *)
| EIsCreated                                 (* container.is_created() *)
| ESetNetworkId (network_id : option string) (* container.network_id = ... *)
| ECreate                                    (* container.create() *)
| EStart (input_data : option string)        (* container.start(input_data=...) *)
| EDelete.                                   (* container.delete() *)

(** A computation: the effects it performed, in order, and how it ended. *)
Definition M (A : Type) : Type := list effect * outcome A.

Definition ret {A} (a : A) : M A := ([], Returned a).
Definition raise {A} (e : exn) : M A := ([], Raised e).
Definition emit (ef : effect) : M unit := ([ef], Returned tt).

Definition bind {A B} (m : M A) (k : A -> M B) : M B :=
  match m with
  | (t1, Returned a) => let '(t2, r) := k a in ((t1 ++ t2)%list, r)
  | (t1, Raised e) => (t1, Raised e)
  end.

(** [try: m except c as ex: h ex] *)
Definition try_except {A} (m : M A) (c : exn_class) (h : exn -> M A) : M A :=
  match m with
  | (t1, Raised e) =>
      if isinstance e c then let '(t2, r) := h e in ((t1 ++ t2)%list, r)
      else (t1, Raised e)
  | (t1, Returned a) => (t1, Returned a)
  end.

(** A call into a collaborator: the call is recorded, then it returns or
    raises as the collaborator says. *)
Definition call {A} (ef : effect) (result : outcome A) : M A := ([ef], result).

Definition trace {A} (m : M A) : list effect := fst m.
Definition result {A} (m : M A) : outcome A := snd m.

End Py.
Import Py.

Notation "'let*' x ':=' m 'in' k" := (bind m (fun x => k))
  (at level 10, x name, m at level 100, k at level 200).
Notation "m ;;; k" := (bind m (fun _ => k))
  (at level 100, k at level 200, right associativity).

(** ** Python's float arithmetic, as far as the module uses it

    A Python float is an IEEE 754 binary64 number; [spec_float] with
    [prec = 53] and [emax = 1024] is its specification. *)

Module PyFloat.

Definition prec : Z := 53.
Definition emax : Z := 1024.

(** An integer as the exact number [z * 2^0]. *)
Definition of_int (z : Z) : spec_float :=
  match z with
  | Z0 => S754_zero false
  | Zpos p => S754_finite false p 0
  | Zneg p => S754_finite true p 0
  end.

(** [a / b] on two ints: the correctly rounded quotient;
    [ZeroDivisionError] when [b] is 0, [OverflowError] when the quotient is
    too large for a float. *)
Definition int_truediv (a b : Z) : outcome spec_float :=
  if b =? 0 then Raised (Exn ZeroDivisionError "division by zero")
  else
    match SFdiv prec emax (of_int a) (of_int b) with
    | S754_infinity _ =>
        Raised (Exn OverflowError "integer division result too large for a float")
    | q => Returned q
    end.

(** [x * n] for a float [x] and an int [n] that a float holds exactly. *)
Definition mul_int (x : spec_float) (n : Z) : spec_float :=
  SFmul prec emax x (of_int n).

(** [int(x)]: truncation towards zero. *)
Definition to_int (x : spec_float) : outcome Z :=
  match x with
  | S754_zero _ => Returned 0
  | S754_finite s m e =>
      let v := Z.shiftl (Zpos m) e in
      Returned (if s then - v else v)
  | S754_infinity _ =>
      Raised (Exn OverflowError "cannot convert float infinity to integer")
  | S754_nan =>
      Raised (Exn ValueError "cannot convert float NaN to integer")
  end.

End PyFloat.

(** ** Regular expressions, as far as [re.search] is used *)

Module Regex.

(** Patterns over character classes. [Dollar] is [$] at the end of a
    pattern: without [re.MULTILINE] it holds at the end of the string and
    just before a newline that ends the string, so what is left of the
    string there is empty or one newline. *)
Inductive regex :=
| Void
| Eps
| Class (p : ascii -> bool)
| Cat (r1 r2 : regex)
| Alt (r1 r2 : regex)
| Star (r : regex)
| Dollar.

Definition newline : ascii := ascii_of_nat 10.
Definition is_newline (c : ascii) : bool := Ascii.eqb c newline.

(** [\d]: a decimal digit (among the code points below 256, the ten ASCII
    digits). *)
Definition is_digit (c : ascii) : bool :=
  let n := nat_of_ascii c in (48 <=? n)%nat && (n <=? 57)%nat.

(** [.]: any character but a newline. *)
Definition is_dot (c : ascii) : bool := negb (is_newline c).

Definition Chr (c : ascii) : regex := Class (Ascii.eqb c).
Definition Plus (r : regex) : regex := Cat r (Star r).

Fixpoint Lit (s : string) : regex :=
  match s with
  | EmptyString => Eps
  | String c s' => Cat (Chr c) (Lit s')
  end.

Fixpoint nullable (r : regex) : bool :=
  match r with
  | Void => false
  | Eps => true
  | Class _ => false
  | Cat r1 r2 => nullable r1 && nullable r2
  | Alt r1 r2 => nullable r1 || nullable r2
  | Star _ => true
  | Dollar => true
  end.

(** The derivative of a pattern by a character. *)
Fixpoint deriv (c : ascii) (r : regex) : regex :=
  match r with
  | Void => Void
  | Eps => Void
  | Class p => if p c then Eps else Void
  | Cat r1 r2 =>
      if nullable r1 then Alt (Cat (deriv c r1) r2) (deriv c r2)
      else Cat (deriv c r1) r2
  | Alt r1 r2 => Alt (deriv c r1) (deriv c r2)
  | Star r1 => Cat (deriv c r1) (Star r1)
  | Dollar => if is_newline c then Eps else Void
  end.

(** The pattern matches the whole of [s]. *)
Fixpoint matches (r : regex) (s : string) : bool :=
  match s with
  | EmptyString => nullable r
  | String c s' => matches (deriv c r) s'
  end.

(** [re.search(r, s) is not None], for a pattern [r] that ends in [$]: the
    pattern matches from some position of [s] to its end. *)
Fixpoint search (r : regex) (s : string) : bool :=
  matches r s ||
  match s with
  | EmptyString => false
  | String _ s' => search r s'
  end.

(** The strings a pattern matches in whole, for the lemmas on [matches]. *)
Inductive lang : regex -> string -> Prop :=
| lang_Eps : lang Eps ""
| lang_Class (p : ascii -> bool) (c : ascii) :
    p c = true -> lang (Class p) (String c "")
| lang_Cat (r1 r2 : regex) (s1 s2 : string) :
    lang r1 s1 -> lang r2 s2 -> lang (Cat r1 r2) (s1 +:+ s2)
| lang_Alt_l (r1 r2 : regex) (s : string) : lang r1 s -> lang (Alt r1 r2) s
| lang_Alt_r (r1 r2 : regex) (s : string) : lang r2 s -> lang (Alt r1 r2) s
| lang_Star_nil (r : regex) : lang (Star r) ""
| lang_Star_app (r : regex) (s1 s2 : string) :
    lang r s1 -> lang (Star r) s2 -> lang (Star r) (s1 +:+ s2)
| lang_Dollar_end : lang Dollar ""
| lang_Dollar_newline : lang Dollar (String newline "").

(** A group of digits: one digit or more. *)
Fixpoint all_digits (s : string) : bool :=
  match s with
  | EmptyString => true
  | String c s' => is_digit c && all_digits s'
  end.

Definition digit_group (s : string) : bool :=
  match s with
  | EmptyString => false
  | String _ _ => all_digits s
  end.

End Regex.

Import Regex.

(** ** The collaborators of the manager *)

(** The Docker client, as far as the manager calls it:
    [docker_client.images.get(name)] returns the image or raises;
    [docker_client.api.pull(name, stream=True, decode=True)] returns the
    lines of the pull stream or raises. *)
Record DockerClient := {
  images_get : string -> outcome unit;
  api_pull : string -> outcome (list line)
}.

(** A [samcli.local.docker.container.Container], as far as the manager
    uses it. *)
Record Container := {
  image : string;
  is_created : bool;
  create : outcome unit;
  start : option string -> outcome unit;
  delete : outcome unit
}.

Record ContainerManager := {
  skip_pull_image : bool;
  docker_network_id : option string;
  docker_client : DockerClient
}.

(** ** The manager *)

Definition CR : string := String (ascii_of_nat 13) EmptyString.
Definition LF : string := String newline EmptyString.

(** An entry of [layers]: [{"current": ..., "total": ...}]. *)
Record layer := { current : Z; total : Z }.

Definition has_image (self : ContainerManager) (image_name : string) : M bool :=
  try_except
    (call (EImagesGet image_name) (images_get (docker_client self) image_name) ;;;
     ret true)
    ImageNotFound
    (fun _ => ret false).

(** The pattern [:rapid-\d+\.\d+.\d+$]: the first dot is escaped, the
    second one is not. *)
Definition rapid_pattern : regex :=
  Cat (Lit ":rapid-")
 (Cat (Plus (Class is_digit))
 (Cat (Chr ".")
 (Cat (Plus (Class is_digit))
 (Cat (Class is_dot)
 (Cat (Plus (Class is_digit))
      Dollar))))).

Definition _is_rapid_image (image_name : string) : bool :=
  if negb (search rapid_pattern image_name) then false else true.

(** [int((current_sum / current_total) * 100)] *)
Definition percentage (current_sum current_total : Z) : outcome Z :=
  match PyFloat.int_truediv current_sum current_total with
  | Raised e => Raised e
  | Returned q => PyFloat.to_int (PyFloat.mul_int q 100)
  end.

(** ["\rDownloading: {} / {} Bytes ({}%)".format(...)] *)
Definition progress_text (current_sum current_total current_percentage : Z) : string :=
  CR +:+ "Downloading: " +:+ pretty current_sum +:+ " / " +:+ pretty current_total
     +:+ " Bytes (" +:+ pretty current_percentage +:+ "%)".

Definition done_text : string :=
  CR +:+ "Downloading: done                                          " +:+ LF.

Definition sum_current (layers : gmap string layer) : Z :=
  map_fold (fun _ value current_sum => current_sum + current value) 0 layers.

Definition sum_total (layers : gmap string layer) : Z :=
  map_fold (fun _ value current_total => current_total + total value) 0 layers.

Definition set_current (c : Z) (value : layer) : layer :=
  {| current := c; total := total value |}.
Definition set_total (t : Z) (value : layer) : layer :=
  {| current := current value; total := t |}.

(** The body of the loop of [_display_image_download_progress], on one
    line: the layers after it. *)
Definition progress_line (layers : gmap string layer) (l : line)
  : M (gmap string layer) :=
  if String.eqb (status l) "Pulling fs layer" then
    ret (<[id l := {| current := 0; total := 0 |}]> layers)
  else if negb (String.eqb (status l) "Downloading") then
    ret layers
  else
    match progressDetail l with
    | None => raise (Exn KeyError "progressDetail")
    | Some detail =>
        match layers !! id l with
        | None => raise (Exn KeyError (id l))
        | Some _ =>
            let layers :=
              alter (set_total (pd_total detail)) (id l)
                (alter (set_current (pd_current detail)) (id l) layers) in
            let current_sum := sum_current layers in
            let current_total := sum_total layers in
            let* current_percentage := ([], percentage current_sum current_total) in
            emit (EWrite (progress_text current_sum current_total current_percentage)) ;;;
            ret layers
        end
    end.

Fixpoint progress_loop (layers : gmap string layer) (result_itr : list line) : M unit :=
  match result_itr with
  | [] => ret tt
  | l :: rest =>
      let* layers := progress_line layers l in
      progress_loop layers rest
  end.

Definition _display_image_download_progress (result_itr : list line) : M unit :=
  progress_loop ∅ result_itr ;;;
  emit (EWrite done_text).

(** The writes go to [stream], or to a writer on [sys.stderr] when none is
    given; both are [EWrite] effects. *)
Definition pull_image (self : ContainerManager) (image_name : string) : M unit :=
  let* result_itr :=
    try_except
      (call (EApiPull image_name) (api_pull (docker_client self) image_name))
      APIError
      (fun ex =>
         emit (ELogDebug ("Failed to download image with name " +:+ image_name)) ;;;
         raise (ExnFrom DockerImagePullFailedException (exn_str ex) ex)) in
  emit (EWrite (LF +:+ "Fetching " +:+ image_name +:+ " Docker container image" +:+ LF)) ;;;
  _display_image_download_progress result_itr.

Definition run (self : ContainerManager) (container : Container)
    (input_data : option string) (warm : bool) : M unit :=
  if warm then
    raise (Exn ValueError "The facility to invoke warm container does not exist")
  else
    let image_name := image container in
    let* is_image_local := has_image self image_name in
    (if is_image_local && skip_pull_image self then
       emit (ELogInfo ("Requested to skip pulling images ..." +:+ LF))
     else if String.prefix "samcli/lambda" image_name
             || (is_image_local && _is_rapid_image image_name) then
       emit (ELogInfo ("Skip pulling image and use local one: " +:+ image_name +:+ "." +:+ LF))
     else
       try_except
         (pull_image self image_name)
         DockerImagePullFailedException
         (fun ex =>
            if negb is_image_local then
              raise (ExnFrom DockerImagePullFailedException
                       ("Could not find " +:+ image_name
                          +:+ " image locally and failed to pull it from docker.") ex)
            else
              emit (ELogInfo ("Failed to download a new " +:+ image_name
                                +:+ " image. Invoking with the already downloaded image.")))) ;;;
    let* created := call EIsCreated (Returned (is_created container)) in
    (if negb created then
       emit (ESetNetworkId (docker_network_id self)) ;;;
       call ECreate (create container)
     else ret tt) ;;;
    call (EStart input_data) (start container input_data).

Definition stop (container : Container) : M unit :=
  call EDelete (delete container).

(** ** Pull streams used in the statements below *)

Definition PullingFsLayer (i : string) : line :=
  {| status := "Pulling fs layer"; id := i; progressDetail := None |}.

Definition Downloading (i : string) (c t : Z) : line :=
  {| status := "Downloading"; id := i;
     progressDetail := Some {| pd_current := c; pd_total := t |} |}.

(** The stream of two layers that download in turn. *)
Definition two_layer_stream : list line :=
  [ PullingFsLayer "A"; PullingFsLayer "B";
    Downloading "A" 50 100; Downloading "B" 30 100;
    Downloading "A" 100 100; Downloading "B" 100 100 ].

(** [i] is introduced by a "Pulling fs layer" line of [lines]. *)
Definition introduces (i : string) (l : line) : bool :=
  String.eqb (status l) "Pulling fs layer" && String.eqb (id l) i.

Definition initialized (lines : list line) (i : string) : bool :=
  existsb (introduces i) lines.

(** The key whose lookup fails on a "Downloading" line of a layer that is
    not tracked: ["progressDetail"] when the line has none (the right-hand
    side of the assignment is evaluated first), the layer id otherwise. *)
Definition missing_key (l : line) : string :=
  match progressDetail l with
  | None => "progressDetail"
  | Some _ => id l
  end.

(** A client that knows no image and cannot pull, one that has every image
    and cannot pull, and a container that is not created yet. *)
Definition api_error : exn := Exn APIError "500 Server Error".

Definition client_without_image : DockerClient :=
  {| images_get := fun _ => Raised (Exn ImageNotFound "404 Client Error");
     api_pull := fun _ => Raised api_error |}.

Definition client_with_image : DockerClient :=
  {| images_get := fun _ => Returned tt;
     api_pull := fun _ => Raised api_error |}.

(** A pull request that fails with an exception that is not an [APIError]
    (the connection to the daemon breaks), without and with the image there
    locally. *)
Definition connection_error : exn :=
  Exn (OtherClass "ConnectionError") "Connection aborted.".

Definition broken_client_without_image : DockerClient :=
  {| images_get := fun _ => Raised (Exn ImageNotFound "404 Client Error");
     api_pull := fun _ => Raised connection_error |}.

Definition broken_client_with_image : DockerClient :=
  {| images_get := fun _ => Returned tt;
     api_pull := fun _ => Raised connection_error |}.

Definition new_container (image_name : string) : Container :=
  {| image := image_name; is_created := false; create := Returned tt;
     start := fun _ => Returned tt; delete := Returned tt |}.

Definition manager (skip : bool) (client : DockerClient) : ContainerManager :=
  {| skip_pull_image := skip; docker_network_id := None; docker_client := client |}.

(** The effects that are calls to the container. *)
Definition container_effect (ef : effect) : bool :=
  match ef with
  | EIsCreated | ESetNetworkId _ | ECreate | EStart _ | EDelete => true
  | _ => false
  end.

(** The messages of [run]. *)
Definition not_found_message (image_name : string) : string :=
  "Could not find " +:+ image_name +:+ " image locally and failed to pull it from docker.".

Definition fallback_message (image_name : string) : string :=
  "Failed to download a new " +:+ image_name
    +:+ " image. Invoking with the already downloaded image.".

(** The end of [run], from the test of [container.is_created()] on: the
    container is created if it is not, then started. *)
Definition create_and_start (self : ContainerManager) (container : Container)
    (input_data : option string) : M unit :=
  let* created := call EIsCreated (Returned (is_created container)) in
  (if negb created then
     emit (ESetNetworkId (docker_network_id self)) ;;;
     call ECreate (create container)
   else ret tt) ;;;
  call (EStart input_data) (start container input_data).

(** The middle of [run]: whether to pull, once it is known whether the
    image is there locally. *)
Definition pull_or_skip (self : ContainerManager) (image_name : string)
    (is_image_local : bool) : M unit :=
  if is_image_local && skip_pull_image self then
    emit (ELogInfo ("Requested to skip pulling images ..." +:+ LF))
  else if String.prefix "samcli/lambda" image_name
          || (is_image_local && _is_rapid_image image_name) then
    emit (ELogInfo ("Skip pulling image and use local one: " +:+ image_name +:+ "." +:+ LF))
  else
    try_except
      (pull_image self image_name)
      DockerImagePullFailedException
      (fun ex =>
         if negb is_image_local then
           raise (ExnFrom DockerImagePullFailedException
                    ("Could not find " +:+ image_name
                       +:+ " image locally and failed to pull it from docker.") ex)
         else
           emit (ELogInfo ("Failed to download a new " +:+ image_name
                             +:+ " image. Invoking with the already downloaded image."))).

(** The lines for which the loop writes a progress line. *)
Definition is_downloading (l : line) : bool := String.eqb (status l) "Downloading".

(** The lines the loop passes over. *)
Definition is_ignored (l : line) : bool :=
  negb (String.eqb (status l) "Pulling fs layer") && negb (is_downloading l).

Definition is_write (ef : effect) : bool :=
  match ef with EWrite _ => true | _ => false end.

(** The header that [pull_image] writes before the progress. *)
Definition fetching_text (image_name : string) : string :=
  LF +:+ "Fetching " +:+ image_name +:+ " Docker container image" +:+ LF.

(** [m * 2^e] is at most [2^B] ([2^k] is 0 for a negative [k]). *)
Definition within (B m e : Z) : Prop := 0 <= m <= 2 ^ (B - e).



(** * Properties *)

(** ** The monad *)

Section Monad.
Context {A B : Type}.

Lemma bind_returned (t : list effect) (a : A) (k : A -> M B) :
  bind (t, Returned a) k = ((t ++ trace (k a))%list, result (k a)).
Proof. unfold bind, trace, result. by destruct (k a). Qed.

Lemma bind_raised (t : list effect) (e : exn) (k : A -> M B) :
  bind (t, Raised e) k = (t, Raised e).
Proof. reflexivity. Qed.

Lemma M_eta (m : M A) : m = (trace m, result m).
Proof. by destruct m. Qed.

Lemma trace_bind_returned (m : M A) (a : A) (k : A -> M B) :
  result m = Returned a ->
  bind m k = ((trace m ++ trace (k a))%list, result (k a)).
Proof. destruct m as [t r]; simpl; intros ->. apply bind_returned. Qed.

Lemma trace_bind_raised (m : M A) (e : exn) (k : A -> M B) :
  result m = Raised e -> bind m k = (trace m, Raised e).
Proof. destruct m as [t r]; simpl; intros ->. reflexivity. Qed.

End Monad.

(** ** [run] with [warm] *)

(** C4: whatever the manager, the container and the input, [run] with
    [warm] set raises the [ValueError] that says warm containers do not
    exist, and has done nothing before: its trace is empty, so nothing was
    asked of the client (no pull) nor of the container (no create, no
    start). *)
Theorem run_warm_raises (self : ContainerManager) (container : Container)
    (input_data : option string) :
  run self container input_data true
  = ([], Raised (Exn ValueError "The facility to invoke warm container does not exist")).
Proof. reflexivity. Qed.

(** ** [has_image] *)

(** C9: [has_image] asks the client once; it returns [True] when the query
    returns, returns [False] exactly when the query raises an
    [ImageNotFound], and raises the client's exception itself when that is
    any other one. *)
Theorem has_image_spec (self : ContainerManager) (image_name : string) :
  trace (has_image self image_name) = [EImagesGet image_name] /\
  (images_get (docker_client self) image_name = Returned tt ->
   result (has_image self image_name) = Returned true) /\
  (result (has_image self image_name) = Returned false <->
   exists e, images_get (docker_client self) image_name = Raised e
             /\ isinstance e ImageNotFound = true) /\
  (forall e, images_get (docker_client self) image_name = Raised e ->
             isinstance e ImageNotFound = false ->
             result (has_image self image_name) = Raised e).
Proof.
  unfold has_image, call, try_except, bind, ret.
  destruct (images_get (docker_client self) image_name) as [[]|e] eqn:Hget; simpl.
  - split; [done|]. split; [done|]. split; [|done].
    split; [done|]. intros (e & He & _); discriminate.
  - destruct (isinstance e ImageNotFound) eqn:Hinst; simpl.
    + split; [done|]. split; [done|]. split.
      * split; [eauto|done].
      * intros e' [= <-]; congruence.
    + split; [done|]. split; [done|]. split.
      * split; [done|]. intros (e' & [= <-] & He'); congruence.
      * by intros e' [= <-] _.
Qed.

(** ** Where an effect of a compound computation comes from *)

Section Traces.
Context {A B : Type}.

Lemma elem_of_trace_bind (m : M A) (k : A -> M B) (ef : effect) :
  ef ∈ trace (bind m k) ->
  ef ∈ trace m \/ exists a, result m = Returned a /\ ef ∈ trace (k a).
Proof.
  destruct m as [t [a|e]]; simpl.
  - destruct (k a) as [t2 r] eqn:Hk; simpl.
    intros [H|H]%elem_of_app; [by left|].
    right; exists a. by rewrite Hk.
  - by left.
Qed.

Lemma elem_of_trace_try (m : M A) (c : exn_class) (h : exn -> M A) (ef : effect) :
  ef ∈ trace (try_except m c h) ->
  ef ∈ trace m \/
  exists e, result m = Raised e /\ isinstance e c = true /\ ef ∈ trace (h e).
Proof.
  destruct m as [t [a|e]]; simpl; [by left|].
  destruct (isinstance e c) eqn:Hc; [|by left].
  destruct (h e) as [t2 r] eqn:Hh; simpl.
  intros [H|H]%elem_of_app; [by left|].
  right; exists e. by rewrite Hh.
Qed.

Lemma elem_of_trace_call (ef0 ef : effect) (r : outcome A) :
  ef ∈ trace (call ef0 r) -> ef = ef0.
Proof. unfold call; simpl. by intros ->%list_elem_of_singleton. Qed.

End Traces.

Lemma elem_of_trace_emit (ef0 ef : effect) : ef ∈ trace (emit ef0) -> ef = ef0.
Proof. unfold emit; simpl. by intros ->%list_elem_of_singleton. Qed.

Lemma has_image_unfold (self : ContainerManager) (image_name : string) :
  has_image self image_name
  = ([EImagesGet image_name],
     match images_get (docker_client self) image_name with
     | Returned _ => Returned true
     | Raised e => if isinstance e ImageNotFound then Returned false else Raised e
     end).
Proof.
  unfold has_image, call, try_except, bind, ret.
  destruct (images_get (docker_client self) image_name) as [[]|e]; simpl; [done|].
  by destruct (isinstance e ImageNotFound).
Qed.

(** The end of [run] (creating the container if it is not, starting it)
    calls the container only. *)
Lemma create_start_no_pull (self : ContainerManager) (container : Container)
    (input_data : option string) (image_name : string) :
  EApiPull image_name ∉
    trace (let* created := call EIsCreated (Returned (is_created container)) in
           (if negb created then
              emit (ESetNetworkId (docker_network_id self)) ;;;
              call ECreate (create container)
            else ret tt) ;;;
           call (EStart input_data) (start container input_data)).
Proof.
  intros H.
  apply elem_of_trace_bind in H as [H%elem_of_trace_call|(created & _ & H)]; [done|].
  apply elem_of_trace_bind in H as [H|(_ & _ & H%elem_of_trace_call)]; [|done].
  destruct (negb created).
  - apply elem_of_trace_bind in H
      as [H%elem_of_trace_emit|(_ & _ & H%elem_of_trace_call)]; done.
  - simpl in H. by apply not_elem_of_nil in H.
Qed.

(** ** When [run] does not pull *)

(** C7: for an image whose name starts with [samcli/lambda], [run] never
    calls the client's [pull], whatever the image, whatever [skip_pull_image]
    and whether or not the image is there locally. *)
Theorem run_builtin_image_never_pulls (self : ContainerManager) (container : Container)
    (input_data : option string) (warm : bool) (image_name : string) :
  String.prefix "samcli/lambda" (image container) = true ->
  EApiPull image_name ∉ trace (run self container input_data warm).
Proof.
  intros Hprefix H. unfold run in H. destruct warm.
  { simpl in H. by apply not_elem_of_nil in H. }
  apply elem_of_trace_bind in H as [H|(is_image_local & _ & H)].
  { rewrite has_image_unfold in H. simpl in H.
    by apply list_elem_of_singleton in H. }
  apply elem_of_trace_bind in H as [H|(_ & _ & H)].
  - rewrite Hprefix in H. simpl in H.
    destruct (is_image_local && skip_pull_image self);
      by apply elem_of_trace_emit in H.
  - by apply create_start_no_pull in H.
Qed.

(** C8: when the image is there locally, [run] never calls the client's
    [pull] if the image name is rapid-tagged, and never does if
    [skip_pull_image] is set. *)
Theorem run_local_rapid_or_skip_never_pulls (self : ContainerManager)
    (container : Container) (input_data : option string) (warm : bool)
    (image_name : string) :
  result (has_image self (image container)) = Returned true ->
  _is_rapid_image (image container) = true \/ skip_pull_image self = true ->
  EApiPull image_name ∉ trace (run self container input_data warm).
Proof.
  intros Hlocal Hcase H. unfold run in H. destruct warm.
  { simpl in H. by apply not_elem_of_nil in H. }
  apply elem_of_trace_bind in H as [H|(is_image_local & Hres & H)].
  { rewrite has_image_unfold in H. simpl in H.
    by apply list_elem_of_singleton in H. }
  rewrite Hlocal in Hres. injection Hres as <-.
  apply elem_of_trace_bind in H as [H|(_ & _ & H)].
  - simpl in H. destruct (skip_pull_image self) eqn:Hskip.
    + by apply elem_of_trace_emit in H.
    + destruct Hcase as [Hrapid|?]; [|done].
      rewrite Hrapid, orb_true_r in H.
      by apply elem_of_trace_emit in H.
  - by apply create_start_no_pull in H.
Qed.

(** ** What a pull does *)

Lemma progress_line_writes_only (layers : gmap string layer) (l : line) (ef : effect) :
  ef ∈ trace (progress_line layers l) -> container_effect ef = false.
Proof.
  unfold progress_line.
  destruct (String.eqb (status l) "Pulling fs layer"); [by intros ?%not_elem_of_nil|].
  destruct (negb (String.eqb (status l) "Downloading")); [by intros ?%not_elem_of_nil|].
  destruct (progressDetail l) as [detail|]; [|by intros ?%not_elem_of_nil].
  destruct (layers !! id l); [|by intros ?%not_elem_of_nil].
  intros [H|(p & _ & H)]%elem_of_trace_bind; [by apply not_elem_of_nil in H|].
  apply elem_of_trace_bind in H as [->%elem_of_trace_emit|(_ & _ & H)]; [done|].
  by apply not_elem_of_nil in H.
Qed.

Lemma progress_loop_writes_only (result_itr : list line) :
  forall (layers : gmap string layer) (ef : effect),
    ef ∈ trace (progress_loop layers result_itr) -> container_effect ef = false.
Proof.
  induction result_itr as [|l rest IH]; intros layers ef; simpl.
  - by intros ?%not_elem_of_nil.
  - intros [H|(layers' & _ & H)]%elem_of_trace_bind.
    + by apply progress_line_writes_only in H.
    + by apply IH in H.
Qed.

Lemma pull_image_no_container_effect (self : ContainerManager) (image_name : string)
    (ef : effect) :
  ef ∈ trace (pull_image self image_name) -> container_effect ef = false.
Proof.
  unfold pull_image.
  intros [H|(result_itr & _ & H)]%elem_of_trace_bind.
  - apply elem_of_trace_try in H as [->%elem_of_trace_call|(e & _ & _ & H)]; [done|].
    apply elem_of_trace_bind in H as [->%elem_of_trace_emit|(_ & _ & H)]; [done|].
    by apply not_elem_of_nil in H.
  - apply elem_of_trace_bind in H as [->%elem_of_trace_emit|(_ & _ & H)]; [done|].
    unfold _display_image_download_progress in H.
    apply elem_of_trace_bind in H as [H|(_ & _ & ->%elem_of_trace_emit)]; [|done].
    by apply progress_loop_writes_only in H.
Qed.

(** ** [run] when the pull fails *)

(** C5, as the code has it: when the image is not there locally
    ([has_image] returns [False]), its name does not start with
    [samcli/lambda] and [pull_image] raises a
    [DockerImagePullFailedException], [run] raises a
    [DockerImagePullFailedException] that says the image was neither found
    locally nor pulled (with the failure of the pull as its cause), having
    only asked for the image and tried the pull: the container is not
    created and not started. *)
Theorem run_pull_failed_without_local_image (self : ContainerManager)
    (container : Container) (input_data : option string) (ex : exn) :
  result (has_image self (image container)) = Returned false ->
  String.prefix "samcli/lambda" (image container) = false ->
  result (pull_image self (image container)) = Raised ex ->
  isinstance ex DockerImagePullFailedException = true ->
  result (run self container input_data false)
  = Raised (ExnFrom DockerImagePullFailedException
              (not_found_message (image container)) ex)
  /\ trace (run self container input_data false)
     = (trace (has_image self (image container))
        ++ trace (pull_image self (image container)))%list
  /\ (ECreate ∉ trace (run self container input_data false))
  /\ (forall d, EStart d ∉ trace (run self container input_data false)).
Proof.
  intros Hlocal Hprefix Hpull Hinst.
  assert (Hrun : run self container input_data false
    = ((trace (has_image self (image container))
        ++ trace (pull_image self (image container)))%list,
       Raised (ExnFrom DockerImagePullFailedException
                 (not_found_message (image container)) ex))).
  { unfold run. rewrite (trace_bind_returned _ false) by done.
    rewrite Hprefix. simpl.
    rewrite (M_eta (pull_image self (image container))), Hpull.
    unfold try_except. rewrite Hinst. simpl.
    by rewrite app_nil_r. }
  rewrite Hrun; simpl. split; [done|]. split; [done|].
  assert (Hnone : forall ef, container_effect ef = true ->
    ef ∉ (trace (has_image self (image container))
          ++ trace (pull_image self (image container)))%list).
  { intros ef Hef [H|H]%elem_of_app.
    - rewrite has_image_unfold in H. simpl in H.
      apply list_elem_of_singleton in H as ->. done.
    - apply pull_image_no_container_effect in H. congruence. }
  split; [|intros d]; by apply Hnone.
Qed.

(** C6, as the code has it: when the image is there locally,
    [skip_pull_image] is not set, the
    image name neither starts with [samcli/lambda] nor is rapid-tagged, and
    [pull_image] raises a [DockerImagePullFailedException], [run] does not
    raise it: it logs that the download failed and that the image already
    there is used, then creates the container if it is not created and
    starts it; [run] returns when these two calls do. *)
Theorem run_pull_failed_with_local_image (self : ContainerManager)
    (container : Container) (input_data : option string) (ex : exn) :
  result (has_image self (image container)) = Returned true ->
  skip_pull_image self = false ->
  String.prefix "samcli/lambda" (image container) = false ->
  _is_rapid_image (image container) = false ->
  result (pull_image self (image container)) = Raised ex ->
  isinstance ex DockerImagePullFailedException = true ->
  (is_created container = false -> create container = Returned tt) ->
  start container input_data = Returned tt ->
  run self container input_data false
  = ((trace (has_image self (image container))
      ++ trace (pull_image self (image container))
      ++ [ELogInfo (fallback_message (image container)); EIsCreated]
      ++ (if is_created container then []
          else [ESetNetworkId (docker_network_id self); ECreate])
      ++ [EStart input_data])%list,
     Returned tt).
Proof.
  intros Hlocal Hskip Hprefix Hrapid Hpull Hinst Hcreate Hstart.
  unfold run. rewrite (trace_bind_returned _ true) by done.
  rewrite Hskip, Hprefix, Hrapid. simpl.
  rewrite (M_eta (pull_image self (image container))), Hpull.
  unfold try_except. rewrite Hinst. simpl. rewrite Hstart.
  destruct (is_created container); simpl.
  - by rewrite <- !app_assoc.
  - rewrite Hcreate by done. simpl. by rewrite <- !app_assoc.
Qed.

Lemma pull_image_api_error (self : ContainerManager) (image_name : string) (ex : exn) :
  api_pull (docker_client self) image_name = Raised ex ->
  isinstance ex APIError = true ->
  pull_image self image_name
  = ([EApiPull image_name;
      ELogDebug ("Failed to download image with name " +:+ image_name)],
     Raised (ExnFrom DockerImagePullFailedException (exn_str ex) ex)).
Proof.
  intros Hpull Hinst. unfold pull_image, call, try_except.
  by rewrite Hpull, Hinst.
Qed.

(** ** The download progress *)

Lemma two_layer_stream_trace :
  trace (_display_image_download_progress two_layer_stream)
  = [ EWrite (progress_text 50 100 50); EWrite (progress_text 80 200 40);
      EWrite (progress_text 130 200 65); EWrite (progress_text 200 200 100);
      EWrite done_text ].
Proof. vm_compute. reflexivity. Qed.

(** C1, as the code has it: on the stream of two layers there is one
    progress line for each of the four "Downloading" lines, with the sums
    over both layers after that line, 50/100, 80/200, 130/200 and 200/200,
    and the percentages 50, 40, 65 and 100, in that order; the completion
    line follows, and the call returns. *)
Theorem two_layer_stream_progress :
  _display_image_download_progress two_layer_stream
  = ([ EWrite (progress_text 50 100 50); EWrite (progress_text 80 200 40);
       EWrite (progress_text 130 200 65); EWrite (progress_text 200 200 100);
       EWrite done_text ],
     Returned tt).
Proof.
  rewrite (M_eta (_display_image_download_progress two_layer_stream)).
  rewrite two_layer_stream_trace. f_equal.
Qed.

(** C1, as stated, fails: the progress lines of the stream of two layers do
    not show the percentages 40, 82 and 100, whatever the sums shown with
    them. *)
Lemma two_layer_stream_not_40_82_100 :
  ~ exists s1 t1 s2 t2 s3 t3 : Z,
      trace (_display_image_download_progress two_layer_stream)
      = [ EWrite (progress_text s1 t1 40); EWrite (progress_text s2 t2 82);
          EWrite (progress_text s3 t3 100); EWrite done_text ].
Proof.
  rewrite two_layer_stream_trace.
  intros (s1 & t1 & s2 & t2 & s3 & t3 & H).
  apply (f_equal length) in H. discriminate H.
Qed.

(** The percentage is that of Python's floats: [int(29 / 100 * 100)] is 28. *)
Example percentage_29_100 : percentage 29 100 = Returned 28.
Proof. vm_compute. reflexivity. Qed.

Lemma percentage_zero_total (current_sum : Z) :
  percentage current_sum 0 = Raised (Exn ZeroDivisionError "division by zero").
Proof. reflexivity. Qed.

(** A "Downloading" line after which the totals of the tracked layers add
    up to 0 raises [ZeroDivisionError], and nothing is written for it. *)
Lemma progress_line_zero_total (layers : gmap string layer) (l : line)
    (detail : progress_detail) (value : layer) :
  status l = "Downloading" ->
  progressDetail l = Some detail ->
  layers !! id l = Some value ->
  sum_total (alter (set_total (pd_total detail)) (id l)
               (alter (set_current (pd_current detail)) (id l) layers)) = 0 ->
  progress_line layers l = ([], Raised (Exn ZeroDivisionError "division by zero")).
Proof.
  intros Hst Hpd Hl Hsum. unfold progress_line.
  rewrite Hst, Hpd, Hl. simpl. rewrite Hsum. reflexivity.
Qed.

(** C2: a "Downloading" line of 0 bytes out of 0 for the only tracked layer
    makes the sum of the totals 0; the division raises [ZeroDivisionError],
    which ends [_display_image_download_progress] with nothing written. *)
Theorem zero_total_raises_ZeroDivisionError :
  _display_image_download_progress [PullingFsLayer "A"; Downloading "A" 0 0]
  = ([], Raised (Exn ZeroDivisionError "division by zero")).
Proof. vm_compute. reflexivity. Qed.

(** C3: [_is_rapid_image] holds of a name whose last two groups of digits
    are separated by a character that is not a dot (the second dot of the
    pattern is not escaped), and of one with two groups only. *)
Theorem is_rapid_image_accepts_non_version :
  _is_rapid_image "amazon/aws-sam-cli-emulation-image-python3.8:rapid-1.2x3" = true
  /\ _is_rapid_image "amazon/aws-sam-cli-emulation-image-python3.8:rapid-1.234" = true.
Proof. split; vm_compute; reflexivity. Qed.

(** ** Lines of layers that are not tracked *)

(** A line that does not introduce [i] leaves [i] untracked. *)
Lemma progress_line_untracked (layers layers' : gmap string layer) (x : line)
    (i : string) :
  result (progress_line layers x) = Returned layers' ->
  layers !! i = None ->
  introduces i x = false ->
  layers' !! i = None.
Proof.
  unfold progress_line, introduces.
  destruct (String.eqb (status x) "Pulling fs layer"); simpl.
  - intros [= <-] Hi Hne%String.eqb_neq. by rewrite lookup_insert_ne.
  - destruct (negb (String.eqb (status x) "Downloading")); simpl.
    { by intros [= <-]. }
    destruct (progressDetail x) as [detail|]; [|done].
    destruct (layers !! id x); [|done].
    simpl. destruct (percentage _ _); [|done].
    simpl. intros [= <-] Hi _. by rewrite !lookup_alter_None.
Qed.

(** The lookup of an untracked layer fails before anything is written. *)
Lemma progress_line_KeyError (layers : gmap string layer) (l : line) :
  status l = "Downloading" ->
  layers !! id l = None ->
  progress_line layers l = ([], Raised (Exn KeyError (missing_key l))).
Proof.
  intros Hst Hl. unfold progress_line, missing_key. rewrite Hst, Hl. simpl.
  by destruct (progressDetail l).
Qed.

Lemma progress_loop_untracked (pre : list line) :
  forall (layers : gmap string layer) (l : line) (post : list line),
    status l = "Downloading" ->
    layers !! id l = None ->
    initialized pre (id l) = false ->
    (exists e, result (progress_loop layers (pre ++ l :: post)) = Raised e) /\
    (result (progress_loop layers pre) = Returned tt ->
     progress_loop layers (pre ++ l :: post)
     = (trace (progress_loop layers pre), Raised (Exn KeyError (missing_key l)))).
Proof.
  induction pre as [|x pre IH]; intros layers l post Hst Hl Hinit.
  - simpl. rewrite progress_line_KeyError by done. simpl. eauto.
  - simpl in Hinit. apply orb_false_elim in Hinit as [Hx Hpre].
    cbn [app progress_loop].
    destruct (progress_line layers x) as [t [layers'|e]] eqn:Hline.
    + assert (Hl' : layers' !! id l = None).
      { apply (progress_line_untracked layers layers' x); [by rewrite Hline|done..]. }
      destruct (IH layers' l post Hst Hl' Hpre) as [(e & He) Hkey].
      rewrite !bind_returned. simpl. split; [eauto|].
      intros Hret. rewrite Hkey by done. done.
    + simpl. split; [eauto|done].
Qed.

(** C10, as the code has it: a stream with a "Downloading" line for a layer
    that no earlier "Pulling fs layer" line introduced never completes: the
    call raises. When the lines before that one are processed without an
    error, the error is the [KeyError] of the failed lookup, raised at that
    line: nothing is written for it, no later line is processed and no
    completion line is written. *)
Theorem uninitialized_layer_raises (pre : list line) (l : line) (post : list line) :
  status l = "Downloading" ->
  initialized pre (id l) = false ->
  (exists e, result (_display_image_download_progress (pre ++ l :: post)) = Raised e) /\
  (result (progress_loop ∅ pre) = Returned tt ->
   _display_image_download_progress (pre ++ l :: post)
   = (trace (progress_loop ∅ pre), Raised (Exn KeyError (missing_key l)))).
Proof.
  intros Hst Hinit.
  destruct (progress_loop_untracked pre ∅ l post Hst (lookup_empty _) Hinit)
    as [(e & He) Hkey].
  unfold _display_image_download_progress. split.
  - exists e. by rewrite (trace_bind_raised _ e).
  - intros Hret. by rewrite Hkey.
Qed.

(** C10, as stated, fails: in this stream the "Downloading" line of layer
    B, which no line introduced, comes after a line that makes the sum of
    the totals 0; the call raises [ZeroDivisionError], not a [KeyError]. *)
Lemma uninitialized_layer_after_zero_total :
  status (Downloading "B" 1 1) = "Downloading" /\
  initialized [PullingFsLayer "A"; Downloading "A" 0 0] (id (Downloading "B" 1 1)) = false /\
  result (_display_image_download_progress
            ([PullingFsLayer "A"; Downloading "A" 0 0] ++ Downloading "B" 1 1 :: []))
  = Raised (Exn ZeroDivisionError "division by zero") /\
  ~ exists key,
      result (_display_image_download_progress
                ([PullingFsLayer "A"; Downloading "A" 0 0] ++ Downloading "B" 1 1 :: []))
      = Raised (Exn KeyError key).
Proof.
  assert (H : result (_display_image_download_progress
            ([PullingFsLayer "A"; Downloading "A" 0 0] ++ Downloading "B" 1 1 :: []))
          = Raised (Exn ZeroDivisionError "division by zero"))
    by (vm_compute; reflexivity).
  rewrite H. repeat split.
  intros (key & Hkey). discriminate Hkey.
Qed.

(** ** The statements above at concrete inputs *)

Lemma has_image_spec_witness :
  result (has_image (manager false client_with_image) "busybox:latest") = Returned true /\
  result (has_image (manager false client_without_image) "busybox:latest") = Returned false /\
  result (has_image (manager false
                       {| images_get := fun _ => Raised api_error;
                          api_pull := fun _ => Raised api_error |}) "busybox:latest")
  = Raised api_error.
Proof.
  destruct (has_image_spec (manager false client_with_image) "busybox:latest")
    as (_ & Htrue & _).
  destruct (has_image_spec (manager false client_without_image) "busybox:latest")
    as (_ & _ & Hfalse & _).
  destruct (has_image_spec
              (manager false {| images_get := fun _ => Raised api_error;
                                api_pull := fun _ => Raised api_error |})
              "busybox:latest")
    as (_ & _ & _ & Hother).
  split; [apply Htrue; reflexivity|].
  split; [apply Hfalse; eexists; split; reflexivity|].
  apply Hother; reflexivity.
Defined.

Lemma run_builtin_image_never_pulls_witness :
  String.prefix "samcli/lambda" (image (new_container "samcli/lambda:python3.8")) = true /\
  EApiPull "samcli/lambda:python3.8"
    ∉ trace (run (manager false client_without_image)
               (new_container "samcli/lambda:python3.8") None false).
Proof.
  split; [reflexivity|].
  apply (run_builtin_image_never_pulls (manager false client_without_image)
           (new_container "samcli/lambda:python3.8") None false).
  reflexivity.
Defined.

Lemma run_local_rapid_or_skip_never_pulls_witness :
  result (has_image (manager false client_with_image)
            (image (new_container "python3.8:rapid-1.2.3"))) = Returned true /\
  _is_rapid_image (image (new_container "python3.8:rapid-1.2.3")) = true /\
  EApiPull "python3.8:rapid-1.2.3"
    ∉ trace (run (manager false client_with_image)
               (new_container "python3.8:rapid-1.2.3") None false).
Proof.
  split; [reflexivity|]. split; [vm_compute; reflexivity|].
  apply (run_local_rapid_or_skip_never_pulls (manager false client_with_image)
           (new_container "python3.8:rapid-1.2.3") None false).
  - reflexivity.
  - left. vm_compute. reflexivity.
Defined.

Lemma run_pull_failed_without_local_image_witness :
  result (run (manager false client_without_image) (new_container "busybox:latest")
            None false)
  = Raised (ExnFrom DockerImagePullFailedException
              (not_found_message "busybox:latest")
              (ExnFrom DockerImagePullFailedException "500 Server Error" api_error))
  /\ (ECreate ∉ trace (run (manager false client_without_image)
                         (new_container "busybox:latest") None false)).
Proof.
  destruct (run_pull_failed_without_local_image
              (manager false client_without_image) (new_container "busybox:latest") None
              (ExnFrom DockerImagePullFailedException "500 Server Error" api_error))
    as (Hres & _ & Hcreate & _).
  - reflexivity.
  - reflexivity.
  - reflexivity.
  - reflexivity.
  - split; [exact Hres | exact Hcreate].
Defined.

Lemma run_pull_failed_with_local_image_witness :
  run (manager false client_with_image) (new_container "busybox:latest") None false
  = ([ EImagesGet "busybox:latest"; EApiPull "busybox:latest";
       ELogDebug "Failed to download image with name busybox:latest";
       ELogInfo (fallback_message "busybox:latest"); EIsCreated;
       ESetNetworkId None; ECreate; EStart None ],
     Returned tt).
Proof.
  apply (run_pull_failed_with_local_image
           (manager false client_with_image) (new_container "busybox:latest") None
           (ExnFrom DockerImagePullFailedException "500 Server Error" api_error)).
  - reflexivity.
  - reflexivity.
  - reflexivity.
  - vm_compute. reflexivity.
  - reflexivity.
  - reflexivity.
  - intros _. reflexivity.
  - reflexivity.
Defined.

Lemma uninitialized_layer_raises_witness :
  result (progress_loop ∅ [PullingFsLayer "A"; Downloading "A" 1 2]) = Returned tt /\
  _display_image_download_progress
    ([PullingFsLayer "A"; Downloading "A" 1 2]
       ++ Downloading "B" 1 1 :: [Downloading "A" 2 2])
  = ([EWrite (progress_text 1 2 50)], Raised (Exn KeyError "B")).
Proof.
  assert (Hpre : progress_loop ∅ [PullingFsLayer "A"; Downloading "A" 1 2]
                 = ([EWrite (progress_text 1 2 50)], Returned tt))
    by (vm_compute; reflexivity).
  split; [by rewrite Hpre|].
  destruct (uninitialized_layer_raises [PullingFsLayer "A"; Downloading "A" 1 2]
              (Downloading "B" 1 1) [Downloading "A" 2 2]) as [_ Hkey].
  - reflexivity.
  - reflexivity.
  - rewrite Hkey by (by rewrite Hpre). by rewrite Hpre.
Defined.

(** ** What [matches] and [search] decide *)

Section Strings.

Lemma append_empty_l (s : string) : "" +:+ s = s.
Proof. reflexivity. Qed.

Lemma append_String (c : ascii) (s1 s2 : string) :
  String c s1 +:+ s2 = String c (s1 +:+ s2).
Proof. reflexivity. Qed.

Lemma append_empty_r (s : string) : s +:+ "" = s.
Proof.
  induction s as [|c s IH]; [done|]. by rewrite append_String, IH.
Qed.

Lemma append_assoc (s1 s2 s3 : string) : (s1 +:+ s2) +:+ s3 = s1 +:+ (s2 +:+ s3).
Proof.
  induction s1 as [|c s1 IH]; [done|]. by rewrite !append_String, IH.
Qed.

Lemma append_eq_empty (s1 s2 : string) : s1 +:+ s2 = "" -> s1 = "" /\ s2 = "".
Proof.
  destruct s1 as [|c s1]; [by rewrite append_empty_l|].
  rewrite append_String. discriminate.
Qed.

Lemma append_eq_String (s1 s2 s : string) (c : ascii) :
  s1 +:+ s2 = String c s ->
  (s1 = "" /\ s2 = String c s) \/ (exists s1', s1 = String c s1' /\ s = s1' +:+ s2).
Proof.
  destruct s1 as [|c1 s1]; [rewrite append_empty_l; by left|].
  rewrite append_String. intros [= -> <-]. right. by exists s1.
Qed.

End Strings.

Section Matching.
Import Regex.

Lemma nullable_lang (r : regex) : nullable r = true <-> lang r "".
Proof.
  induction r as [| |p|r1 IH1 r2 IH2|r1 IH1 r2 IH2|r IH|]; simpl.
  - split; [done|inversion 1].
  - split; [constructor|done].
  - split; [done|inversion 1].
  - rewrite andb_true_iff, IH1, IH2. split.
    + intros [H1 H2]. by apply (lang_Cat r1 r2 "" "").
    + inversion 1 as [| |? ? s1 s2 H1 H2 [Hr1 Hr2] Hs| | | | | |]; subst.
      apply append_eq_empty in Hs as [-> ->]. done.
  - rewrite orb_true_iff, IH1, IH2. split.
    + intros [H|H]; [by apply lang_Alt_l|by apply lang_Alt_r].
    + inversion 1; subst; [by left|by right].
  - split; [constructor|done].
  - split; [constructor|done].
Qed.

Lemma lang_Star_String (r : regex) (c : ascii) (s : string) :
  lang (Star r) (String c s) ->
  exists s1 s2, s = s1 +:+ s2 /\ lang r (String c s1) /\ lang (Star r) s2.
Proof.
  intros H. remember (Star r) as r' eqn:Hr. remember (String c s) as w eqn:Hw.
  revert s Hw.
  induction H as [| | | | | |r0 s1 s2 H1 _ H2 IH2| |]; try discriminate.
  injection Hr as ->. intros s Hw.
  apply append_eq_String in Hw as [[-> ->]|(s1' & -> & ->)].
  - by apply IH2.
  - by exists s1', s2.
Qed.

Lemma deriv_lang (r : regex) :
  forall (c : ascii) (s : string), lang (deriv c r) s <-> lang r (String c s).
Proof.
  induction r as [| |p|r1 IH1 r2 IH2|r1 IH1 r2 IH2|r IH|]; intros c s; simpl.
  - split; inversion 1.
  - split; inversion 1.
  - destruct (p c) eqn:Hp.
    + split; inversion 1; subst; [by constructor|constructor].
    + split; inversion 1; subst. congruence.
  - assert (Hcat : lang (Cat (deriv c r1) r2) s ->
                   lang (Cat r1 r2) (String c s)).
    { inversion 1 as [| |? ? s1 s2 H1 H2| | | | | |]; subst.
      apply IH1 in H1. by apply (lang_Cat r1 r2 (String c s1) s2). }
    assert (Hinv : lang (Cat r1 r2) (String c s) ->
                   (lang r1 "" /\ lang r2 (String c s)) \/
                   lang (Cat (deriv c r1) r2) s).
    { inversion 1 as [| |? ? s1 s2 H1 H2 [Hr1 Hr2] Hs| | | | | |]; subst.
      apply append_eq_String in Hs as [[-> ->]|(s1' & -> & ->)]; [by left|].
      right. apply lang_Cat; [by apply IH1|done]. }
    destruct (nullable r1) eqn:Hnull.
    + split.
      * inversion 1; subst; [by apply Hcat|].
        apply (lang_Cat r1 r2 "" (String c s)); [by apply nullable_lang|by apply IH2].
      * intros [[_ H2]|H]%Hinv; [apply lang_Alt_r; by apply IH2|by apply lang_Alt_l].
    + split; [done|].
      intros [[H1%nullable_lang _]|H]%Hinv; [congruence|done].
  - split.
    + inversion 1; subst; [apply lang_Alt_l; by apply IH1|apply lang_Alt_r; by apply IH2].
    + inversion 1; subst; [apply lang_Alt_l; by apply IH1|apply lang_Alt_r; by apply IH2].
  - split.
    + inversion 1 as [| |? ? s1 s2 H1 H2| | | | | |]; subst.
      apply IH in H1. by apply (lang_Star_app r (String c s1) s2).
    + intros (s1 & s2 & -> & H1 & H2)%lang_Star_String.
      apply lang_Cat; [by apply IH|done].
  - unfold is_newline. destruct (Ascii.eqb_spec c newline) as [->|Hc].
    + split; inversion 1; subst; constructor.
    + split; inversion 1; subst. done.
Qed.

Lemma matches_lang (s : string) : forall r : regex, matches r s = true <-> lang r s.
Proof.
  induction s as [|c s IH]; intros r; simpl.
  - apply nullable_lang.
  - by rewrite IH, deriv_lang.
Qed.

Lemma search_lang (r : regex) (s : string) :
  search r s = true <-> exists pre suf, s = pre +:+ suf /\ lang r suf.
Proof.
  induction s as [|c s IH]; simpl; rewrite orb_true_iff.
  - rewrite nullable_lang. split.
    + intros [H|?]; [|done]. by exists "", "".
    + intros (pre & suf & [-> ->]%eq_sym%append_eq_empty & H). by left.
  - rewrite matches_lang, deriv_lang, IH. split.
    + intros [H|(pre & suf & -> & H)].
      * by exists "", (String c s).
      * by exists (String c pre), suf.
    + intros (pre & suf & Hs & H).
      symmetry in Hs. apply append_eq_String in Hs as [[-> ->]|(pre' & -> & ->)].
      * by left.
      * right. by exists pre', suf.
Qed.

End Matching.

(** ** The names [_is_rapid_image] holds of *)

Section Rapid.
Import Regex.

Lemma lang_Cat_iff (r1 r2 : regex) (w : string) :
  lang (Cat r1 r2) w <-> exists s1 s2, w = s1 +:+ s2 /\ lang r1 s1 /\ lang r2 s2.
Proof.
  split.
  - inversion 1; subst. eauto.
  - intros (s1 & s2 & -> & H1 & H2). by apply lang_Cat.
Qed.

Lemma lang_Class_iff (p : ascii -> bool) (w : string) :
  lang (Class p) w <-> exists c, w = String c "" /\ p c = true.
Proof.
  split.
  - inversion 1; subst. eauto.
  - intros (c & -> & H). by apply lang_Class.
Qed.

Lemma lang_Chr_iff (c : ascii) (w : string) : lang (Chr c) w <-> w = String c "".
Proof.
  unfold Chr. rewrite lang_Class_iff. split.
  - by intros (c' & -> & ->%Ascii.eqb_eq).
  - intros ->. exists c. split; [done|]. by apply Ascii.eqb_eq.
Qed.

Lemma lang_Dollar_iff (w : string) : lang Dollar w <-> w = "" \/ w = LF.
Proof.
  split.
  - inversion 1; subst; [by left|by right].
  - intros [->| ->]; constructor.
Qed.

Lemma lang_Lit_iff (s w : string) : lang (Lit s) w <-> w = s.
Proof.
  revert w. induction s as [|c s IH]; intros w; simpl.
  - split; [by inversion 1|intros ->; constructor].
  - rewrite lang_Cat_iff. split.
    + intros (s1 & s2 & -> & ->%lang_Chr_iff & ->%IH). done.
    + intros ->. exists (String c ""), s. split; [done|].
      split; [by apply lang_Chr_iff|by apply IH].
Qed.

Lemma lang_Star_digits (w : string) :
  lang (Star (Class is_digit)) w <-> all_digits w = true.
Proof.
  split.
  - intros H. remember (Star (Class is_digit)) as r eqn:Hr.
    induction H as [| | | | | |r0 s1 s2 H1 _ H2 IH2| |]; try discriminate; [done|].
    injection Hr as ->. apply lang_Class_iff in H1 as (c & -> & Hc).
    rewrite append_String, append_empty_l. simpl. rewrite Hc. by apply IH2.
  - induction w as [|c w IH]; simpl; [constructor|].
    intros [Hc Hw]%andb_true_iff.
    apply (lang_Star_app (Class is_digit) (String c "") w); [by constructor|by apply IH].
Qed.

Lemma lang_digit_group (w : string) :
  lang (Plus (Class is_digit)) w <-> digit_group w = true.
Proof.
  unfold Plus. rewrite lang_Cat_iff. split.
  - intros (s1 & s2 & -> & (c & -> & Hc)%lang_Class_iff & H2%lang_Star_digits).
    rewrite append_String, append_empty_l. simpl. by rewrite Hc.
  - destruct w as [|c w]; [done|]. simpl. intros [Hc Hw]%andb_true_iff.
    exists (String c ""), w. split; [done|].
    split; [by constructor|by apply lang_Star_digits].
Qed.

(** What the pattern matches in whole: [:rapid-], a group of digits, a dot,
    a group of digits, any character but a newline, a group of digits, and
    then nothing or one newline. *)
Lemma lang_rapid_pattern (w : string) :
  lang rapid_pattern w <->
  exists d1 d2 c d3 tl,
    w = ":rapid-" +:+ d1 +:+ "." +:+ d2 +:+ String c "" +:+ d3 +:+ tl
    /\ digit_group d1 = true /\ digit_group d2 = true /\ digit_group d3 = true
    /\ is_newline c = false /\ (tl = "" \/ tl = LF).
Proof.
  unfold rapid_pattern. split.
  - intros (s0 & w1 & -> & ->%lang_Lit_iff & H)%lang_Cat_iff.
    apply lang_Cat_iff in H as (d1 & w2 & -> & Hd1%lang_digit_group & H).
    apply lang_Cat_iff in H as (s1 & w3 & -> & ->%lang_Chr_iff & H).
    apply lang_Cat_iff in H as (d2 & w4 & -> & Hd2%lang_digit_group & H).
    apply lang_Cat_iff in H as (s2 & w5 & -> & (c & -> & Hc)%lang_Class_iff & H).
    apply lang_Cat_iff in H as (d3 & tl & -> & Hd3%lang_digit_group & Htl%lang_Dollar_iff).
    exists d1, d2, c, d3, tl. repeat split; try done.
    unfold is_dot in Hc. by apply negb_true_iff in Hc.
  - intros (d1 & d2 & c & d3 & tl & -> & Hd1 & Hd2 & Hd3 & Hc & Htl).
    apply lang_Cat; [by apply lang_Lit_iff|].
    apply lang_Cat; [by apply lang_digit_group|].
    apply lang_Cat; [by apply lang_Chr_iff|].
    apply lang_Cat; [by apply lang_digit_group|].
    apply lang_Cat; [apply lang_Class; unfold is_dot; by rewrite Hc|].
    apply lang_Cat; [by apply lang_digit_group|by apply lang_Dollar_iff].
Qed.

(** X15: [_is_rapid_image] holds exactly of the names that end so. *)
Lemma is_rapid_image_iff (image_name : string) :
  _is_rapid_image image_name = true <->
  exists pre d1 d2 c d3 tl,
    image_name
    = pre +:+ ":rapid-" +:+ d1 +:+ "." +:+ d2 +:+ String c "" +:+ d3 +:+ tl
    /\ digit_group d1 = true /\ digit_group d2 = true /\ digit_group d3 = true
    /\ is_newline c = false /\ (tl = "" \/ tl = LF).
Proof.
  unfold _is_rapid_image.
  assert (Hif : forall b : bool, (if negb b then false else true) = b) by (by intros []).
  rewrite Hif, search_lang. split.
  - intros (pre & suf & -> & (d1 & d2 & c & d3 & tl & -> & H)%lang_rapid_pattern).
    by exists pre, d1, d2, c, d3, tl.
  - intros (pre & d1 & d2 & c & d3 & tl & -> & H).
    exists pre, (":rapid-" +:+ d1 +:+ "." +:+ d2 +:+ String c "" +:+ d3 +:+ tl).
    split; [done|]. apply lang_rapid_pattern. by exists d1, d2, c, d3, tl.
Qed.

(** X16: In particular it holds of every name that ends with [:rapid-] and three
    groups of digits separated by dots. *)
Lemma is_rapid_image_version (pre major minor patch : string) :
  digit_group major = true -> digit_group minor = true -> digit_group patch = true ->
  _is_rapid_image (pre +:+ ":rapid-" +:+ major +:+ "." +:+ minor +:+ "." +:+ patch) = true.
Proof.
  intros Hmajor Hminor Hpatch. unfold _is_rapid_image.
  assert (Hsearch : search rapid_pattern
                      (pre +:+ ":rapid-" +:+ major +:+ "." +:+ minor +:+ "." +:+ patch)
                    = true); [|by rewrite Hsearch].
  apply search_lang.
  exists pre, (":rapid-" +:+ major +:+ "." +:+ minor +:+ "." +:+ patch).
  split; [done|]. apply lang_rapid_pattern.
  exists major, minor, "."%char, patch, "".
  rewrite append_empty_r. repeat split; try done. by left.
Qed.

End Rapid.

(** * Further properties *)

(** ** The sums over the tracked layers *)

Section Sums.
Variable field : layer -> Z.

Let sum (layers : gmap string layer) : Z :=
  map_fold (fun _ value acc => acc + field value) 0 layers.

Lemma sum_insert_fresh (layers : gmap string layer) (i : string) (value : layer) :
  layers !! i = None ->
  sum (<[i := value]> layers) = sum layers + field value.
Proof.
  intros Hi. unfold sum. rewrite map_fold_insert_L; [done| |done].
  intros; lia.
Qed.

Lemma sum_insert (layers : gmap string layer) (i : string) (value : layer) :
  sum (<[i := value]> layers)
  = sum layers - from_option field 0 (layers !! i) + field value.
Proof.
  destruct (layers !! i) as [old|] eqn:Hi; simpl.
  - rewrite <- (insert_delete_id layers i old) at 2 by done.
    rewrite <- insert_delete_eq.
    rewrite !sum_insert_fresh by apply lookup_delete_eq. lia.
  - rewrite sum_insert_fresh by done. lia.
Qed.

End Sums.

Lemma sum_current_insert (layers : gmap string layer) (i : string) (value : layer) :
  sum_current (<[i := value]> layers)
  = sum_current layers - from_option current 0 (layers !! i) + current value.
Proof. apply (sum_insert current). Qed.

Lemma sum_total_insert (layers : gmap string layer) (i : string) (value : layer) :
  sum_total (<[i := value]> layers)
  = sum_total layers - from_option total 0 (layers !! i) + total value.
Proof. apply (sum_insert total). Qed.

(** The two assignments of a "Downloading" line replace the entry of the
    layer. *)
Lemma alter_current_total (layers : gmap string layer) (i : string) (c t : Z)
    (value : layer) :
  layers !! i = Some value ->
  alter (set_total t) i (alter (set_current c) i layers)
  = <[i := {| current := c; total := t |}]> layers.
Proof.
  intros Hi. apply map_eq. intros j.
  destruct (decide (i = j)) as [<-|Hne].
  - rewrite !lookup_alter_eq, lookup_insert_eq, Hi. done.
  - rewrite !lookup_alter_ne, lookup_insert_ne by done. done.
Qed.

(** ** The float arithmetic never yields a NaN here *)

Section NoNaN.

Lemma shr_1_nonneg (mrs : shr_record) : 0 <= shr_m mrs -> 0 <= shr_m (shr_1 mrs).
Proof.
  destruct mrs as [m r s]; simpl. destruct m as [|[p|p|]|p]; simpl; lia.
Qed.

Lemma iter_pos_preserves {A : Type} (P : A -> Prop) (f : A -> A) :
  (forall x, P x -> P (f x)) -> forall (p : positive) (x : A), P x -> P (SpecFloat.iter_pos f p x).
Proof.
  intros Hf. induction p as [p IH|p IH|]; intros x Hx; simpl; auto.
Qed.

Lemma shr_nonneg (mrs : shr_record) (e n : Z) :
  0 <= shr_m mrs -> 0 <= shr_m (fst (shr mrs e n)).
Proof.
  intros H. destruct n as [|p|p]; simpl; [done| |done].
  apply (iter_pos_preserves (fun x => 0 <= shr_m x)); [apply shr_1_nonneg|done].
Qed.

Lemma shr_record_of_loc_m (m : Z) (l : location) : shr_m (shr_record_of_loc m l) = m.
Proof. by destruct l as [|[]]. Qed.

Lemma shr_fexp_nonneg (prec emax m e : Z) (l : location) :
  0 <= m -> 0 <= shr_m (fst (shr_fexp prec emax m e l)).
Proof.
  intros H. unfold shr_fexp. apply shr_nonneg. by rewrite shr_record_of_loc_m.
Qed.

Lemma round_nearest_even_nonneg (m : Z) (l : location) :
  0 <= m -> 0 <= round_nearest_even m l.
Proof.
  intros H. destruct l as [|[]]; simpl; try lia. destruct (Z.even m); lia.
Qed.

Lemma binary_round_aux_not_nan (prec emax : Z) (sx : bool) (mx ex : Z) (lx : location) :
  0 <= mx -> binary_round_aux prec emax sx mx ex lx <> S754_nan.
Proof.
  intros Hmx. unfold binary_round_aux.
  pose proof (shr_fexp_nonneg prec emax mx ex lx Hmx) as H1.
  destruct (shr_fexp prec emax mx ex lx) as [mrs' e']. simpl in H1.
  pose proof (shr_fexp_nonneg prec emax
                (round_nearest_even (shr_m mrs') (loc_of_shr_record mrs')) e' loc_Exact
                (round_nearest_even_nonneg _ _ H1)) as H2.
  destruct (shr_fexp prec emax _ e' loc_Exact) as [mrs'' e'']. simpl in H2.
  destruct (shr_m mrs'') as [|m|m]; [done| |lia].
  by destruct (e'' <=? emax - prec).
Qed.

Lemma div_eucl_div_mod (a b : Z) : Z.div_eucl a b = (a / b, a mod b).
Proof. unfold Z.div, Z.modulo. by destruct (Z.div_eucl a b). Qed.

Lemma SFdiv_of_int_not_nan (a b : Z) :
  b <> 0 -> SFdiv PyFloat.prec PyFloat.emax (PyFloat.of_int a) (PyFloat.of_int b) <> S754_nan.
Proof.
  intros Hb.
  assert (Hfin : forall sx sy mx my,
    SFdiv PyFloat.prec PyFloat.emax (S754_finite sx mx 0) (S754_finite sy my 0) <> S754_nan).
  { intros sx sy mx my. unfold SFdiv, SFdiv_core_binary.
    rewrite div_eucl_div_mod. apply binary_round_aux_not_nan.
    apply Z.div_pos; [|lia].
    destruct (0 - 0 - _) as [|p|p]; [lia| |lia].
    apply Z.shiftl_nonneg. lia. }
  destruct a as [|p|p], b as [|q|q]; unfold PyFloat.of_int; try apply Hfin; done.
Qed.

Lemma mul_int_not_nan (x : spec_float) (n : Z) :
  n <> 0 -> x <> S754_nan -> (forall s, x <> S754_infinity s) ->
  PyFloat.mul_int x n <> S754_nan.
Proof.
  intros Hn Hnan Hinf. unfold PyFloat.mul_int.
  destruct x as [s|s| |s m e]; [|by destruct (Hinf s)|done|].
  - by destruct n.
  - destruct n as [|p|p]; [done| |]; simpl; by apply binary_round_aux_not_nan.
Qed.

End NoNaN.

(** [int((current_sum / current_total) * 100)] raises [ZeroDivisionError]
    when, and only when, the total is 0; the only other error it can raise
    is [OverflowError]. *)
Lemma percentage_raises (current_sum current_total : Z) (e : exn) :
  percentage current_sum current_total = Raised e ->
  (current_total = 0 /\ e = Exn ZeroDivisionError "division by zero")
  \/ (current_total <> 0 /\ exn_cls e = OverflowError).
Proof.
  unfold percentage, PyFloat.int_truediv.
  destruct (Z.eqb_spec current_total 0) as [->|Hne].
  { intros [= <-]. by left. }
  pose proof (SFdiv_of_int_not_nan current_sum current_total Hne) as Hdiv.
  destruct (SFdiv _ _ _ _) as [s|s| |s m ex] eqn:Hq; [|intros [= <-]; by right|done|].
  - pose proof (mul_int_not_nan (S754_zero s) 100) as Hmul.
    destruct (PyFloat.mul_int _ _); simpl; try done.
    + intros [= <-]; by right.
    + by destruct Hmul.
  - pose proof (mul_int_not_nan (S754_finite s m ex) 100) as Hmul.
    destruct (PyFloat.mul_int _ _); simpl; try done.
    + intros [= <-]; by right.
    + by destruct Hmul.
Qed.

(** ** The percentage at the two ends *)

Lemma SFdiv_same (sx sy : bool) (m : positive) :
  SFdiv PyFloat.prec PyFloat.emax (S754_finite sx m 0) (S754_finite sy m 0)
  = S754_finite (xorb sx sy) 4503599627370496 (-52).
Proof.
  unfold SFdiv, SFdiv_core_binary.
  replace (Zdigits2 (Z.pos m) + 0 - (Zdigits2 (Z.pos m) + 0)) with 0 by lia.
  change (Z.min (fexp PyFloat.prec PyFloat.emax 0) (0 - 0)) with (-53).
  change (0 - 0 - -53) with 53.
  rewrite div_eucl_div_mod, Z.shiftl_mul_pow2 by lia.
  rewrite (Z.mul_comm (Z.pos m)), Z.div_mul, Z.mod_mul by lia.
  assert (Hloc : new_location (Z.pos m) 0 = loc_Exact).
  { unfold new_location. by destruct (Z.even (Z.pos m)). }
  rewrite Hloc. by destruct sx, sy.
Qed.

(** X1: With a total that is not 0, the percentage is 0 when nothing is
    downloaded and 100 when the sum of the current sizes is the total,
    whatever the size of the numbers. *)
Theorem percentage_0_and_100 (current_total : Z) :
  current_total <> 0 ->
  percentage 0 current_total = Returned 0
  /\ percentage current_total current_total = Returned 100.
Proof.
  intros Hne. unfold percentage, PyFloat.int_truediv.
  destruct (Z.eqb_spec current_total 0) as [|_]; [done|].
  destruct current_total as [|m|m]; [done| |]; unfold PyFloat.of_int.
  - split; [reflexivity|]. rewrite SFdiv_same. reflexivity.
  - split; [reflexivity|]. rewrite SFdiv_same. reflexivity.
Qed.

Lemma percentage_0_and_100_witness :
  percentage 0 7 = Returned 0 /\ percentage 7 7 = Returned 100.
Proof. apply (percentage_0_and_100 7). lia. Defined.

(** X2: [percentage] raises [ZeroDivisionError] exactly when the total is 0,
    and no error but [OverflowError] otherwise: its float is never a NaN. *)
Theorem percentage_errors (current_sum current_total : Z) :
  (current_total = 0 <->
   percentage current_sum current_total
   = Raised (Exn ZeroDivisionError "division by zero"))
  /\ (forall e, percentage current_sum current_total = Raised e ->
                exn_cls e = ZeroDivisionError \/ exn_cls e = OverflowError).
Proof.
  split; [split|].
  - intros ->. reflexivity.
  - intros [[? _]|[_ He]]%percentage_raises; [done|discriminate He].
  - intros e [[_ ->]|[_ He]]%percentage_raises; [by left|by right].
Qed.

(** ** One line of the stream *)

(** X3: A "Pulling fs layer" line writes nothing and tracks the layer from 0 of
    0: the other layers are as before, and the sums are those before less
    what an earlier entry of the same layer counted for. *)
Theorem pulling_fs_layer_line (layers : gmap string layer) (l : line) :
  status l = "Pulling fs layer" ->
  exists layers',
    progress_line layers l = ([], Returned layers')
    /\ layers' !! id l = Some {| current := 0; total := 0 |}
    /\ (forall j, j <> id l -> layers' !! j = layers !! j)
    /\ sum_current layers'
       = sum_current layers - from_option current 0 (layers !! id l)
    /\ sum_total layers'
       = sum_total layers - from_option total 0 (layers !! id l).
Proof.
  intros Hst. exists (<[id l := {| current := 0; total := 0 |}]> layers).
  unfold progress_line. rewrite Hst. simpl.
  split; [done|]. split; [by rewrite lookup_insert_eq|].
  split; [intros j Hj; by rewrite lookup_insert_ne|].
  rewrite sum_current_insert, sum_total_insert. simpl. lia.
Qed.

Lemma pulling_fs_layer_line_witness :
  exists layers',
    progress_line ∅ (PullingFsLayer "A") = ([], Returned layers')
    /\ layers' !! "A" = Some {| current := 0; total := 0 |}
    /\ sum_total layers' = 0.
Proof.
  destruct (pulling_fs_layer_line ∅ (PullingFsLayer "A")) as (layers' & H1 & H2 & _ & _ & H5).
  - reflexivity.
  - exists layers'. split; [exact H1|]. split; [exact H2|exact H5].
Defined.

(** X4: A "Downloading" line of a tracked layer replaces the entry of that
    layer and writes one progress line, with the running sums: those
    before, less what the layer counted for, plus what the line says. *)
Theorem downloading_line_running_sums (layers : gmap string layer) (l : line)
    (detail : progress_detail) (value : layer) (p : Z) :
  status l = "Downloading" ->
  progressDetail l = Some detail ->
  layers !! id l = Some value ->
  percentage (sum_current layers - current value + pd_current detail)
             (sum_total layers - total value + pd_total detail) = Returned p ->
  progress_line layers l
  = ([EWrite (progress_text (sum_current layers - current value + pd_current detail)
                            (sum_total layers - total value + pd_total detail) p)],
     Returned (<[id l := {| current := pd_current detail;
                            total := pd_total detail |}]> layers)).
Proof.
  intros Hst Hpd Hl Hp. unfold progress_line. rewrite Hst, Hpd, Hl. simpl.
  rewrite (alter_current_total layers (id l) _ _ value Hl).
  rewrite sum_current_insert, sum_total_insert, Hl. simpl.
  by rewrite Hp.
Qed.

Lemma downloading_line_running_sums_witness :
  progress_line (<["A" := {| current := 50; total := 100 |}]>
                   (<["B" := {| current := 0; total := 0 |}]> ∅))
                (Downloading "B" 30 100)
  = ([EWrite (progress_text 80 200 40)],
     Returned (<["B" := {| current := 30; total := 100 |}]>
                 (<["A" := {| current := 50; total := 100 |}]>
                    (<["B" := {| current := 0; total := 0 |}]> ∅)))).
Proof.
  rewrite (downloading_line_running_sums
             (<["A" := {| current := 50; total := 100 |}]>
                (<["B" := {| current := 0; total := 0 |}]> ∅))
             (Downloading "B" 30 100)
             {| pd_current := 30; pd_total := 100 |}
             {| current := 0; total := 0 |} 40).
  - vm_compute. reflexivity.
  - reflexivity.
  - reflexivity.
  - vm_compute. reflexivity.
  - vm_compute. reflexivity.
Defined.

(** ** The whole stream *)

Lemma progress_line_ignored (layers : gmap string layer) (l : line) :
  is_ignored l = true -> progress_line layers l = ([], Returned layers).
Proof.
  unfold is_ignored, is_downloading, progress_line.
  intros [H1 H2]%andb_true_iff.
  apply negb_true_iff in H1. by rewrite H1, H2.
Qed.

Lemma progress_line_not_downloading (layers : gmap string layer) (l : line) :
  is_downloading l = false ->
  exists layers', progress_line layers l = ([], Returned layers').
Proof.
  unfold is_downloading, progress_line. intros H.
  destruct (String.eqb (status l) "Pulling fs layer"); [eauto|].
  rewrite H. simpl. eauto.
Qed.




Lemma progress_loop_ignored (pre : list line) :
  forall (layers : gmap string layer) (l : line) (post : list line),
    is_ignored l = true ->
    progress_loop layers (pre ++ l :: post) = progress_loop layers (pre ++ post).
Proof.
  induction pre as [|x pre IH]; intros layers l post Hl.
  - simpl. rewrite progress_line_ignored, bind_returned by done.
    simpl. by rewrite <- M_eta.
  - cbn [app progress_loop].
    destruct (progress_line layers x) as [t [layers'|e]]; [|done].
    rewrite !bind_returned. by rewrite IH.
Qed.

(** X6: A line whose status is neither "Pulling fs layer" nor "Downloading"
    changes nothing: the call does the same with and without it, wherever
    it is in the stream. *)
Theorem display_ignores_other_status (pre : list line) (l : line) (post : list line) :
  is_ignored l = true ->
  _display_image_download_progress (pre ++ l :: post)
  = _display_image_download_progress (pre ++ post).
Proof.
  intros Hl. unfold _display_image_download_progress.
  by rewrite progress_loop_ignored.
Qed.

Lemma display_ignores_other_status_witness :
  _display_image_download_progress
    ([PullingFsLayer "A"]
       ++ {| status := "Waiting"; id := "A"; progressDetail := None |}
       :: [Downloading "A" 1 2])
  = _display_image_download_progress ([PullingFsLayer "A"] ++ [Downloading "A" 1 2]).
Proof. apply display_ignores_other_status. reflexivity. Defined.

Lemma progress_line_cases (layers : gmap string layer) (l : line) :
  (is_downloading l = false /\
   exists layers', progress_line layers l = ([], Returned layers'))
  \/ (is_downloading l = true /\
      ((exists current_sum current_total p layers',
          progress_line layers l
          = ([EWrite (progress_text current_sum current_total p)], Returned layers'))
       \/ (exists e,
             progress_line layers l = ([], Raised e) /\
             (e = Exn KeyError (missing_key l)
              \/ e = Exn ZeroDivisionError "division by zero"
              \/ exn_cls e = OverflowError)))).
Proof.
  destruct (is_downloading l) eqn:Hd.
  2:{ left. split; [done|]. by apply progress_line_not_downloading. }
  right. split; [done|].
  unfold is_downloading in Hd. apply String.eqb_eq in Hd.
  unfold progress_line, missing_key. rewrite Hd. simpl.
  destruct (progressDetail l) as [detail|]; [|right; eauto].
  destruct (layers !! id l) as [value|]; [|right; eauto].
  destruct (percentage _ _) as [p|e] eqn:Hp; simpl.
  - left. eauto 10.
  - right. exists e. split; [done|].
    apply percentage_raises in Hp as [[_ ->]|[_ He]]; auto.
Qed.

Lemma progress_loop_shape (result_itr : list line) :
  forall layers : gmap string layer,
  exists texts,
    trace (progress_loop layers result_itr) = map EWrite texts
    /\ Forall (fun text => exists s t p, text = progress_text s t p) texts
    /\ match result (progress_loop layers result_itr) with
       | Returned _ => length texts = length (List.filter is_downloading result_itr)
       | Raised e =>
           (length texts < length (List.filter is_downloading result_itr))%nat
           /\ ((exists l, In l result_itr /\ is_downloading l = true
                          /\ e = Exn KeyError (missing_key l))
               \/ e = Exn ZeroDivisionError "division by zero"
               \/ exn_cls e = OverflowError)
       end.
Proof.
  induction result_itr as [|l rest IH]; intros layers.
  { exists []. simpl. by repeat split. }
  cbn [progress_loop List.filter].
  destruct (progress_line_cases layers l)
    as [[Hd (layers' & Hl)]
       |[Hd [(s & t & p & layers' & Hl)|(e & Hl & He)]]]; rewrite Hl, Hd.
  - destruct (IH layers') as (texts & Htr & Htexts & Hres).
    exists texts. rewrite bind_returned. simpl.
    split; [done|]. split; [done|].
    destruct (result (progress_loop layers' rest)); [done|].
    destruct Hres as [Hlen [(l' & Hin & Hl')|Hres]]; split; auto.
    left. exists l'. split; [by right|done].
  - destruct (IH layers') as (texts & Htr & Htexts & Hres).
    exists (progress_text s t p :: texts). rewrite bind_returned. simpl.
    split; [by rewrite Htr|]. split; [constructor; eauto|].
    destruct (result (progress_loop layers' rest)); [by rewrite Hres|].
    destruct Hres as [Hlen [(l' & Hin & Hl')|Hres]]; split; auto with lia.
    left. exists l'. split; [by right|done].
  - exists []. simpl. split; [done|]. split; [done|]. split; [lia|].
    destruct He as [->|He]; [|by right].
    left. exists l. split; [by left|done].
Qed.


(** ** The three parts of [run] *)

Lemma run_parts (self : ContainerManager) (container : Container)
    (input_data : option string) :
  run self container input_data false
  = (let* is_image_local := has_image self (image container) in
     pull_or_skip self (image container) is_image_local ;;;
     create_and_start self container input_data).
Proof. reflexivity. Qed.

Lemma pull_image_trace_head (self : ContainerManager) (image_name : string) :
  exists t, trace (pull_image self image_name) = EApiPull image_name :: t.
Proof.
  unfold pull_image, call, try_except.
  destruct (api_pull (docker_client self) image_name) as [result_itr|ex].
  - rewrite bind_returned. simpl. eauto.
  - destruct (isinstance ex APIError); simpl; eauto.
Qed.

Lemma pull_image_pulls_that_image (self : ContainerManager) (image_name n : string) :
  EApiPull n ∈ trace (pull_image self image_name) -> n = image_name.
Proof.
  unfold pull_image.
  intros [H|(result_itr & _ & H)]%elem_of_trace_bind.
  - apply elem_of_trace_try in H as [H%elem_of_trace_call|(e & _ & _ & H)]; [congruence|].
    apply elem_of_trace_bind in H as [H%elem_of_trace_emit|(_ & _ & H)]; [done|].
    by apply not_elem_of_nil in H.
  - apply elem_of_trace_bind in H as [H%elem_of_trace_emit|(_ & _ & H)]; [done|].
    unfold _display_image_download_progress in H.
    apply elem_of_trace_bind in H as [H|(_ & _ & H%elem_of_trace_emit)]; [|done].
    destruct (progress_loop_shape result_itr ∅) as (texts & Htr & _).
    rewrite Htr in H. apply list_elem_of_In, in_map_iff in H as (text & Htext & _).
    done.
Qed.

Lemma pull_or_skip_no_container_effect (self : ContainerManager) (image_name : string)
    (is_image_local : bool) (ef : effect) :
  ef ∈ trace (pull_or_skip self image_name is_image_local) -> container_effect ef = false.
Proof.
  unfold pull_or_skip.
  destruct (is_image_local && skip_pull_image self); [by intros ->%elem_of_trace_emit|].
  destruct (String.prefix "samcli/lambda" image_name || _);
    [by intros ->%elem_of_trace_emit|].
  intros [H|(e & _ & _ & H)]%elem_of_trace_try.
  - by apply pull_image_no_container_effect in H.
  - destruct (negb is_image_local).
    + by apply not_elem_of_nil in H.
    + by apply elem_of_trace_emit in H as ->.
Qed.

Lemma filter_no_container_effect (t : list effect) :
  (forall ef, ef ∈ t -> container_effect ef = false) ->
  List.filter container_effect t = [].
Proof.
  induction t as [|ef t IH]; intros H; simpl; [done|].
  rewrite (H ef) by apply list_elem_of_here.
  apply IH. intros ef' Hef'. apply H. by apply list_elem_of_further.
Qed.

(** [run] is in one of two cases: it raised before the container was
    touched, or it went on to the end, after effects that are not calls to
    the container. *)
Lemma run_shape (self : ContainerManager) (container : Container)
    (input_data : option string) (warm : bool) :
  exists t0,
    List.filter container_effect t0 = [] /\
    ((exists e, run self container input_data warm = (t0, Raised e))
     \/ run self container input_data warm
        = ((t0 ++ trace (create_and_start self container input_data))%list,
           result (create_and_start self container input_data))).
Proof.
  destruct warm.
  { exists []. split; [done|]. left. eauto. }
  rewrite run_parts.
  destruct (has_image self (image container)) as [t1 [is_image_local|e]] eqn:Hhas.
  2:{ exists t1. split; [|left; eauto].
      rewrite has_image_unfold in Hhas. by injection Hhas as <- _. }
  assert (Ht1 : t1 = [EImagesGet (image container)]).
  { rewrite has_image_unfold in Hhas. by injection Hhas as <- _. }
  rewrite bind_returned.
  pose proof (pull_or_skip_no_container_effect self (image container) is_image_local)
    as Hpolicy.
  destruct (pull_or_skip self (image container) is_image_local) as [t2 [[]|e]].
  - exists (t1 ++ t2)%list. split.
    + apply filter_no_container_effect. intros ef [H|H]%elem_of_app.
      * subst t1. by apply list_elem_of_singleton in H as ->.
      * by apply Hpolicy.
    + right. rewrite bind_returned. simpl. by rewrite app_assoc.
  - exists (t1 ++ t2)%list. split.
    + apply filter_no_container_effect. intros ef [H|H]%elem_of_app.
      * subst t1. by apply list_elem_of_singleton in H as ->.
      * by apply Hpolicy.
    + left. exists e. done.
Qed.

(** ** How [run] calls the container *)

(** X9: The calls [run] makes to the container, in order, are one of four
    sequences. None, and [run] raised. [is_created] then [start], for a
    container that is created: [run] ends as [start] does. For one that is
    not: [is_created], the assignment of the manager's network id and
    [create], then [start] if [create] returned, and [run] ends as [start]
    does; if [create] raised, [start] is not called and [run] raises what
    [create] raised. *)
Theorem run_container_calls (self : ContainerManager) (container : Container)
    (input_data : option string) (warm : bool) :
  let calls := List.filter container_effect (trace (run self container input_data warm)) in
  let outcome := result (run self container input_data warm) in
  (calls = [] /\ exists e, outcome = Raised e)
  \/ (is_created container = true
      /\ calls = [EIsCreated; EStart input_data]
      /\ outcome = start container input_data)
  \/ (is_created container = false
      /\ create container = Returned tt
      /\ calls = [EIsCreated; ESetNetworkId (docker_network_id self); ECreate;
                  EStart input_data]
      /\ outcome = start container input_data)
  \/ (is_created container = false
      /\ exists e, create container = Raised e
      /\ calls = [EIsCreated; ESetNetworkId (docker_network_id self); ECreate]
      /\ outcome = Raised e).
Proof.
  intros calls outcome. subst calls outcome.
  destruct (run_shape self container input_data warm) as (t0 & Ht0 & [(e & ->)| ->]).
  { left. simpl. split; [done|eauto]. }
  right. simpl. rewrite List.filter_app, Ht0. simpl.
  unfold create_and_start, call. rewrite bind_returned. simpl.
  destruct (is_created container); simpl.
  - left. done.
  - right. destruct (create container) as [[]|e]; simpl.
    + left. done.
    + right. split; [done|]. exists e. done.
Qed.

(** ** When [run] pulls *)

Lemma create_and_start_no_pull (self : ContainerManager) (container : Container)
    (input_data : option string) (n : string) :
  EApiPull n ∉ trace (create_and_start self container input_data).
Proof. apply create_start_no_pull. Qed.

(** X10: [run] calls the client's [pull] exactly when [warm] is not set,
    [has_image] returns, and neither reason to skip holds: the image is
    there and [skip_pull_image] is set; the name starts with
    [samcli/lambda], or the image is there and is rapid-tagged. The image
    pulled is then the container's. *)
Theorem run_pulls_iff (self : ContainerManager) (container : Container)
    (input_data : option string) (warm : bool) (n : string) :
  EApiPull n ∈ trace (run self container input_data warm) <->
  n = image container /\ warm = false /\
  exists is_image_local,
    result (has_image self (image container)) = Returned is_image_local
    /\ is_image_local && skip_pull_image self = false
    /\ String.prefix "samcli/lambda" (image container) = false
    /\ is_image_local && _is_rapid_image (image container) = false.
Proof.
  split.
  - destruct warm; [by intros ?%not_elem_of_nil|].
    rewrite run_parts.
    intros [H|(is_image_local & Hres & H)]%elem_of_trace_bind.
    { rewrite has_image_unfold in H. simpl in H.
      by apply list_elem_of_singleton in H. }
    apply elem_of_trace_bind in H as [H|(_ & _ & H)];
      [|by apply create_and_start_no_pull in H].
    unfold pull_or_skip in H.
    destruct (is_image_local && skip_pull_image self) eqn:Hskip;
      [by apply elem_of_trace_emit in H|].
    destruct (String.prefix "samcli/lambda" (image container)) eqn:Hprefix;
      [by apply elem_of_trace_emit in H|].
    destruct (is_image_local && _is_rapid_image (image container)) eqn:Hrapid;
      [by apply elem_of_trace_emit in H|].
    simpl in H.
    apply elem_of_trace_try in H as [H|(e & _ & _ & H)].
    + apply pull_image_pulls_that_image in H. split; [done|]. split; [done|].
      by exists is_image_local.
    + destruct (negb is_image_local).
      * by apply not_elem_of_nil in H.
      * by apply elem_of_trace_emit in H.
  - intros (-> & -> & is_image_local & Hres & Hskip & Hprefix & Hrapid).
    rewrite run_parts.
    rewrite (trace_bind_returned _ is_image_local) by done. simpl.
    apply elem_of_app. right.
    unfold pull_or_skip. rewrite Hskip, Hprefix, Hrapid. simpl.
    destruct (pull_image_trace_head self (image container)) as (t & Ht).
    destruct (pull_image self (image container)) as [tp rp]. simpl in Ht. subst tp.
    match goal with
    | |- context [bind ?m ?k] =>
        assert (Hm : exists t', trace m = EApiPull (image container) :: t')
    end.
    { unfold try_except. destruct rp as [[]|e]; simpl; [eauto|].
      destruct (isinstance e DockerImagePullFailedException); simpl; [|eauto].
      destruct (if negb is_image_local then _ else _); simpl; eauto. }
    destruct Hm as (t' & Hm).
    match goal with
    | |- context [bind ?m ?k] => destruct m as [tm [[]|e]]
    end; simpl in Hm; subst tm.
    + rewrite bind_returned. simpl. apply list_elem_of_here.
    + simpl. apply list_elem_of_here.
Qed.

(** X11: An exception of the image query that is not an [ImageNotFound] ends
    [run] at once: [run] raises it, having neither pulled nor called the
    container. *)
Theorem run_image_query_error (self : ContainerManager) (container : Container)
    (input_data : option string) (e : exn) :
  images_get (docker_client self) (image container) = Raised e ->
  isinstance e ImageNotFound = false ->
  run self container input_data false
  = ([EImagesGet (image container)], Raised e).
Proof.
  intros Hget Hinst. rewrite run_parts, has_image_unfold, Hget, Hinst. done.
Qed.

Lemma run_image_query_error_witness :
  run (manager false {| images_get := fun _ => Raised api_error;
                        api_pull := fun _ => Returned [] |})
      (new_container "busybox:latest") None false
  = ([EImagesGet "busybox:latest"], Raised api_error).
Proof.
  apply (run_image_query_error
           (manager false {| images_get := fun _ => Raised api_error;
                             api_pull := fun _ => Returned [] |})
           (new_container "busybox:latest") None api_error).
  - reflexivity.
  - reflexivity.
Defined.

(** ** Errors of a pull that [run] does not catch *)

Lemma display_raises_class (result_itr : list line) (e : exn) :
  result (_display_image_download_progress result_itr) = Raised e ->
  exn_cls e = KeyError \/ exn_cls e = ZeroDivisionError \/ exn_cls e = OverflowError.
Proof.
  destruct (progress_loop_shape result_itr ∅) as (texts & _ & _ & Hres).
  unfold _display_image_download_progress.
  rewrite (M_eta (progress_loop ∅ result_itr)).
  destruct (result (progress_loop ∅ result_itr)) as [[]|e']; simpl; [done|].
  intros [= <-]. destruct Hres as [_ [(l & _ & _ & ->)|[->|He]]]; auto.
Qed.

Lemma pull_image_returned_lines (self : ContainerManager) (image_name : string)
    (result_itr : list line) :
  api_pull (docker_client self) image_name = Returned result_itr ->
  pull_image self image_name
  = ((EApiPull image_name :: EWrite (fetching_text image_name)
        :: trace (_display_image_download_progress result_itr))%list,
     result (_display_image_download_progress result_itr)).
Proof.
  intros Hpull. unfold pull_image, call, try_except. rewrite Hpull.
  rewrite bind_returned. simpl.
  by destruct (_display_image_download_progress result_itr).
Qed.

(** X12: When [pull_image] raises a [DockerImagePullFailedException], it is the
    request to the client that raised: the stream was not read, and
    nothing was written, not even the line that names the image. *)
Theorem pull_failed_is_request_failed (self : ContainerManager) (image_name : string)
    (e : exn) :
  result (pull_image self image_name) = Raised e ->
  isinstance e DockerImagePullFailedException = true ->
  (exists ex, api_pull (docker_client self) image_name = Raised ex)
  /\ List.filter is_write (trace (pull_image self image_name)) = [].
Proof.
  destruct (api_pull (docker_client self) image_name) as [result_itr|ex] eqn:Hpull.
  - rewrite (pull_image_returned_lines self image_name result_itr Hpull). simpl.
    intros Hres%display_raises_class Hinst. unfold isinstance in Hinst.
    destruct Hres as [He|[He|He]]; rewrite He in Hinst; discriminate Hinst.
  - intros _ _. split; [eauto|].
    unfold pull_image, call, try_except. rewrite Hpull.
    by destruct (isinstance ex APIError).
Qed.

Lemma pull_failed_is_request_failed_witness :
  (exists ex, api_pull (docker_client (manager false client_with_image)) "busybox:latest"
              = Raised ex)
  /\ List.filter is_write (trace (pull_image (manager false client_with_image)
                                    "busybox:latest")) = [].
Proof.
  apply (pull_failed_is_request_failed (manager false client_with_image) "busybox:latest"
           (ExnFrom DockerImagePullFailedException "500 Server Error" api_error)).
  - reflexivity.
  - reflexivity.
Defined.

(** X13: An error of the progress display is not caught by [run], even when the
    image is there locally: if the pull request returns its stream and the
    display of that stream raises, [run] raises the same exception and the
    container is not called. *)
Theorem run_display_error_propagates (self : ContainerManager) (container : Container)
    (input_data : option string) (is_image_local : bool) (result_itr : list line)
    (e : exn) :
  result (has_image self (image container)) = Returned is_image_local ->
  is_image_local && skip_pull_image self = false ->
  String.prefix "samcli/lambda" (image container) = false ->
  is_image_local && _is_rapid_image (image container) = false ->
  api_pull (docker_client self) (image container) = Returned result_itr ->
  result (_display_image_download_progress result_itr) = Raised e ->
  result (run self container input_data false) = Raised e
  /\ List.filter container_effect (trace (run self container input_data false)) = [].
Proof.
  intros Hlocal Hskip Hprefix Hrapid Hpull Hdisplay.
  assert (Hinst : isinstance e DockerImagePullFailedException = false).
  { unfold isinstance.
    destruct (display_raises_class result_itr e Hdisplay) as [He|[He|He]];
      by rewrite He. }
  assert (Hrun : run self container input_data false
                 = ((trace (has_image self (image container))
                     ++ trace (pull_image self (image container)))%list, Raised e)).
  { rewrite run_parts, (trace_bind_returned _ is_image_local) by done.
    unfold pull_or_skip. rewrite Hskip, Hprefix, Hrapid. simpl.
    rewrite (pull_image_returned_lines self _ result_itr Hpull), Hdisplay.
    unfold try_except. rewrite Hinst. done. }
  rewrite Hrun. simpl. split; [done|].
  apply filter_no_container_effect. intros ef [H|H]%elem_of_app.
  - rewrite has_image_unfold in H. simpl in H.
    by apply list_elem_of_singleton in H as ->.
  - by apply pull_image_no_container_effect in H.
Qed.

Lemma run_display_error_propagates_witness :
  result (run (manager false
                 {| images_get := fun _ => Returned tt;
                    api_pull := fun _ => Returned [PullingFsLayer "A"; Downloading "A" 0 0] |})
            (new_container "busybox:latest") None false)
  = Raised (Exn ZeroDivisionError "division by zero").
Proof.
  apply (run_display_error_propagates
           (manager false
              {| images_get := fun _ => Returned tt;
                 api_pull := fun _ => Returned [PullingFsLayer "A"; Downloading "A" 0 0] |})
           (new_container "busybox:latest") None true
           [PullingFsLayer "A"; Downloading "A" 0 0]
           (Exn ZeroDivisionError "division by zero")).
  - reflexivity.
  - reflexivity.
  - reflexivity.
  - vm_compute. reflexivity.
  - reflexivity.
  - vm_compute. reflexivity.
Defined.

(** ** What a pull that returns has written *)

(** X14: When [pull_image] returns, the client was asked once for the stream,
    and the writes are, in order: the line that names the image, one
    progress line for each "Downloading" line of the stream, and the
    completion line. *)
Theorem pull_image_output (self : ContainerManager) (image_name : string) :
  result (pull_image self image_name) = Returned tt ->
  exists result_itr texts,
    api_pull (docker_client self) image_name = Returned result_itr
    /\ trace (pull_image self image_name)
       = (EApiPull image_name :: EWrite (fetching_text image_name)
            :: map EWrite texts ++ [EWrite done_text])%list
    /\ Forall (fun text => exists s t p, text = progress_text s t p) texts
    /\ length texts = length (List.filter is_downloading result_itr).
Proof.
  destruct (api_pull (docker_client self) image_name) as [result_itr|ex] eqn:Hpull.
  - rewrite (pull_image_returned_lines self image_name result_itr Hpull). simpl.
    intros Hres. exists result_itr.
    destruct (progress_loop_shape result_itr ∅) as (texts & Htr & Htexts & Hloop).
    exists texts. split; [done|].
    unfold _display_image_download_progress in *.
    destruct (progress_loop ∅ result_itr) as [t [[]|e]]; simpl in *; [|discriminate Hres].
    by subst t.
  - unfold pull_image, call, try_except. rewrite Hpull.
    destruct (isinstance ex APIError); simpl; discriminate.
Qed.

Lemma pull_image_output_witness :
  exists result_itr texts,
    api_pull (docker_client
                (manager false {| images_get := fun _ => Returned tt;
                                  api_pull := fun _ => Returned two_layer_stream |}))
      "busybox:latest" = Returned result_itr
    /\ trace (pull_image
                (manager false {| images_get := fun _ => Returned tt;
                                  api_pull := fun _ => Returned two_layer_stream |})
                "busybox:latest")
       = (EApiPull "busybox:latest" :: EWrite (fetching_text "busybox:latest")
            :: map EWrite texts ++ [EWrite done_text])%list
    /\ length texts = length (List.filter is_downloading result_itr).
Proof.
  destruct (pull_image_output
              (manager false {| images_get := fun _ => Returned tt;
                                api_pull := fun _ => Returned two_layer_stream |})
              "busybox:latest") as (result_itr & texts & H1 & H2 & _ & H4).
  - vm_compute. reflexivity.
  - exists result_itr, texts. split; [exact H1|]. split; [exact H2|exact H4].
Defined.

(** ** More on [_is_rapid_image] *)

(** X17: The test looks at the end of the name only: what holds of a name holds
    of it behind any registry or repository prefix. *)
Theorem is_rapid_image_prefix (pre image_name : string) :
  _is_rapid_image image_name = true ->
  _is_rapid_image (pre +:+ image_name) = true.
Proof.
  unfold _is_rapid_image.
  assert (Hif : forall b : bool, (if negb b then false else true) = b) by (by intros []).
  rewrite !Hif, !search_lang.
  intros (pre' & suf & -> & H). exists (pre +:+ pre'), suf.
  by rewrite append_assoc.
Qed.

Lemma is_rapid_image_prefix_witness :
  _is_rapid_image ("registry.example.com/" +:+ "python3.8:rapid-1.2.3") = true.
Proof. apply is_rapid_image_prefix. vm_compute. reflexivity. Defined.

Lemma is_rapid_image_version_witness :
  _is_rapid_image ("python3.8" +:+ ":rapid-" +:+ "1" +:+ "." +:+ "23" +:+ "." +:+ "0")
  = true.
Proof. apply is_rapid_image_version; reflexivity. Defined.

(** ** When the float arithmetic does not overflow *)

Section NoOverflow.

Lemma digits2_pos_size (p : positive) : digits2_pos p = Pos.size p.
Proof. induction p as [p IH|p IH|]; simpl; by rewrite ?IH. Qed.

Lemma Zdigits2_le (m k : Z) : 0 <= k -> 0 < m <= 2 ^ k -> Zdigits2 m <= k + 1.
Proof.
  intros Hk [Hm Hle]. destruct m as [|p|p]; [lia| |lia]. simpl.
  rewrite digits2_pos_size.
  pose proof (Pos.size_le p) as Hsize.
  apply Pos2Z.pos_le_pos in Hsize. rewrite Pos2Z.inj_pow in Hsize.
  change (Z.pos p~0) with (2 * Z.pos p) in Hsize.
  destruct (Z.le_gt_cases (Z.pos (Pos.size p)) (k + 1)) as [|Hgt]; [done|].
  assert (2 ^ (k + 2) <= 2 ^ Z.pos (Pos.size p)) by (apply Z.pow_le_mono_r; lia).
  rewrite (Z.pow_add_r 2 k 2) in * by lia. lia.
Qed.

Lemma within_half (B m e : Z) : within B m e -> within B (m / 2) (e + 1).
Proof.
  unfold within. intros [H0 Hle].
  split; [by apply Z.div_pos|].
  destruct (Z.le_gt_cases (B - e) 0) as [Hneg|Hpos].
  - assert (2 ^ (B - e) <= 1).
    { destruct (Z.eq_dec (B - e) 0) as [->|]; [done|].
      rewrite Z.pow_neg_r by lia. lia. }
    assert (m / 2 = 0) as -> by (apply Z.div_small; lia).
    apply Z.pow_nonneg. lia.
  - replace (B - e) with (Z.succ (B - (e + 1))) in Hle by lia.
    rewrite Z.pow_succ_r in Hle by lia.
    apply Z.div_le_upper_bound; lia.
Qed.

Lemma shr_1_div2 (mrs : shr_record) :
  0 <= shr_m mrs -> shr_m (shr_1 mrs) = shr_m mrs / 2.
Proof.
  intros H. rewrite <- Z.div2_div.
  destruct mrs as [m r s]; simpl in *. by destruct m as [|[p|p|]|p].
Qed.

Lemma within_shr_1 (B : Z) (mrs : shr_record) (e : Z) :
  within B (shr_m mrs) e -> within B (shr_m (shr_1 mrs)) (e + 1).
Proof.
  intros H. rewrite shr_1_div2 by apply H. by apply within_half.
Qed.

Lemma within_iter_shr_1 (B : Z) (p : positive) :
  forall (mrs : shr_record) (e : Z),
    within B (shr_m mrs) e ->
    within B (shr_m (SpecFloat.iter_pos shr_1 p mrs)) (e + Z.pos p).
Proof.
  induction p as [p IH|p IH|]; intros mrs e H; simpl.
  - replace (e + Z.pos p~1) with (e + 1 + Z.pos p + Z.pos p) by lia.
    apply IH, IH. by apply within_shr_1.
  - replace (e + Z.pos p~0) with (e + Z.pos p + Z.pos p) by lia.
    by apply IH, IH.
  - by apply within_shr_1.
Qed.

Lemma within_shr_fexp (B m e : Z) (l : location) :
  within B m e ->
  within B (shr_m (fst (shr_fexp PyFloat.prec PyFloat.emax m e l)))
           (snd (shr_fexp PyFloat.prec PyFloat.emax m e l)).
Proof.
  intros H. unfold shr_fexp, shr.
  destruct (fexp _ _ _ - e) as [|p|p]; simpl; rewrite ?shr_record_of_loc_m; try done.
  apply within_iter_shr_1. by rewrite shr_record_of_loc_m.
Qed.

Lemma shr_fexp_exponent (m e : Z) (l : location) :
  snd (shr_fexp PyFloat.prec PyFloat.emax m e l)
  = Z.max e (fexp PyFloat.prec PyFloat.emax (Zdigits2 m + e)).
Proof.
  unfold shr_fexp, shr.
  destruct (fexp _ _ _ - e) as [|p|p] eqn:Hn; simpl; lia.
Qed.

Lemma fexp_le (x B : Z) :
  -1074 <= B -> x <= B + 1 -> fexp PyFloat.prec PyFloat.emax x <= B.
Proof.
  unfold fexp, emin, PyFloat.prec, PyFloat.emax. lia.
Qed.

Lemma shr_fexp_exponent_le (B m e : Z) (l : location) :
  -1074 <= B -> within B m e -> e <= B ->
  snd (shr_fexp PyFloat.prec PyFloat.emax m e l) <= B.
Proof.
  intros HB [H0 Hle] He. rewrite shr_fexp_exponent.
  apply Z.max_lub; [done|]. apply fexp_le; [done|].
  destruct (Z.eq_dec m 0) as [->|Hm]; [simpl; lia|].
  pose proof (Zdigits2_le m (B - e)). lia.
Qed.

Lemma round_nearest_even_le (m : Z) (l : location) : round_nearest_even m l <= m + 1.
Proof. destruct l as [|[]]; simpl; try lia. destruct (Z.even m); lia. Qed.

(** Rounding a number of at most [2^B] gives a zero or a finite float, of
    at most [2^(B+1)]. *)
Lemma binary_round_aux_within (B : Z) (sx : bool) (mx ex : Z) (lx : location) :
  -1074 <= B <= 970 -> within B mx ex -> ex <= B ->
  match binary_round_aux PyFloat.prec PyFloat.emax sx mx ex lx with
  | S754_zero _ => True
  | S754_finite _ m e => within (B + 1) (Z.pos m) e
  | _ => False
  end.
Proof.
  intros HB Hmx Hex. unfold binary_round_aux.
  pose proof (within_shr_fexp B mx ex lx Hmx) as H1.
  pose proof (shr_fexp_exponent_le B mx ex lx (proj1 HB) Hmx Hex) as He1.
  destruct (shr_fexp PyFloat.prec PyFloat.emax mx ex lx) as [mrs' e']. simpl in H1, He1.
  set (m1 := round_nearest_even (shr_m mrs') (loc_of_shr_record mrs')).
  assert (Hm1 : within (B + 1) m1 e').
  { destruct H1 as [H0 Hle]. split; [by apply round_nearest_even_nonneg|].
    pose proof (round_nearest_even_le (shr_m mrs') (loc_of_shr_record mrs')).
    replace (B + 1 - e') with (Z.succ (B - e')) by lia.
    rewrite Z.pow_succ_r by lia.
    assert (0 < 2 ^ (B - e')) by (apply Z.pow_pos_nonneg; lia).
    fold m1 in H. lia. }
  pose proof (within_shr_fexp (B + 1) m1 e' loc_Exact Hm1) as H2.
  destruct (shr_fexp PyFloat.prec PyFloat.emax m1 e' loc_Exact) as [mrs'' e''].
  simpl in H2.
  destruct (shr_m mrs'') as [|m|m] eqn:Hm; [done| |destruct H2; lia].
  assert (He2 : e'' <= B + 1).
  { destruct H2 as [_ Hle].
    destruct (Z.le_gt_cases e'' (B + 1)) as [|Hgt]; [done|].
    rewrite Z.pow_neg_r in Hle by lia. lia. }
  assert (Hle : (e'' <=? PyFloat.emax - PyFloat.prec) = true).
  { apply Z.leb_le. unfold PyFloat.emax, PyFloat.prec. lia. }
  by rewrite Hle.
Qed.

Lemma SFdiv_of_int_within (a b B : Z) :
  b <> 0 -> 0 <= B <= 970 -> Z.abs a <= 2 ^ B ->
  match SFdiv PyFloat.prec PyFloat.emax (PyFloat.of_int a) (PyFloat.of_int b) with
  | S754_zero _ => True
  | S754_finite _ m e => within (B + 1) (Z.pos m) e
  | _ => False
  end.
Proof.
  intros Hb HB Ha.
  assert (Hfin : forall sx sy mx my, Z.pos mx <= 2 ^ B ->
    match SFdiv PyFloat.prec PyFloat.emax (S754_finite sx mx 0) (S754_finite sy my 0) with
    | S754_zero _ => True
    | S754_finite _ m e => within (B + 1) (Z.pos m) e
    | _ => False
    end).
  { intros sx sy mx my Hmx. unfold SFdiv, SFdiv_core_binary.
    rewrite div_eucl_div_mod.
    set (e' := Z.min _ (0 - 0)).
    assert (He' : e' <= 0) by (subst e'; lia).
    apply binary_round_aux_within; [lia| |lia].
    assert (Hm' : 0 <= match 0 - 0 - e' with
                       | 0 => Z.pos mx
                       | Z.pos _ => Z.shiftl (Z.pos mx) (0 - 0 - e')
                       | Z.neg _ => 0
                       end <= 2 ^ (B - e')).
    { destruct (0 - 0 - e') as [|p|p] eqn:Hs.
      - replace e' with 0 by lia. rewrite Z.sub_0_r. lia.
      - rewrite Z.shiftl_mul_pow2 by lia.
        replace (B - e') with (B + Z.pos p) by lia.
        rewrite Z.pow_add_r by lia.
        split; [lia|]. apply Z.mul_le_mono_nonneg_r; lia.
      - lia. }
    split.
    - apply Z.div_pos; lia.
    - etrans; [|apply Hm']. apply Z.div_le_upper_bound; [lia|]. nia. }
  destruct a as [|p|p], b as [|q|q]; unfold PyFloat.of_int; try done;
    apply Hfin; lia.
Qed.

Lemma percentage_returns (current_sum current_total : Z) :
  current_total <> 0 -> Z.abs current_sum <= 2 ^ 960 ->
  exists p, percentage current_sum current_total = Returned p.
Proof.
  intros Ht Hs. unfold percentage, PyFloat.int_truediv.
  destruct (Z.eqb_spec current_total 0) as [|_]; [done|].
  pose proof (SFdiv_of_int_within current_sum current_total 960 Ht) as Hdiv.
  destruct (SFdiv _ _ _ _) as [s|s| |s m e]; try (by destruct Hdiv; [lia|done]).
  - simpl. eauto.
  - assert (Hq : within 961 (Z.pos m) e) by (apply Hdiv; [lia|done]).
    unfold PyFloat.mul_int, PyFloat.of_int, SFmul.
    pose proof (binary_round_aux_within 968 (xorb s false) (Z.pos (m * 100)) (e + 0)
                  loc_Exact) as Hmul.
    destruct (binary_round_aux _ _ _ _ _ _) as [s'|s'| |s' m' e']; simpl; eauto.
    + destruct Hmul; try lia.
      * destruct Hq as [_ Hle]. split; [lia|].
        assert (e <= 961).
        { destruct (Z.le_gt_cases e 961) as [|Hgt]; [done|].
          rewrite Z.pow_neg_r in Hle by lia. lia. }
        replace (968 - (e + 0)) with (961 - e + 7) by lia.
        rewrite Z.pow_add_r by lia. rewrite Pos2Z.inj_mul. nia.
      * destruct Hq as [_ Hle].
        destruct (Z.le_gt_cases e 961) as [|Hgt]; [lia|].
        rewrite Z.pow_neg_r in Hle by lia. lia.
    + destruct Hmul; try lia.
      * destruct Hq as [_ Hle]. split; [lia|].
        assert (e <= 961).
        { destruct (Z.le_gt_cases e 961) as [|Hgt]; [done|].
          rewrite Z.pow_neg_r in Hle by lia. lia. }
        replace (968 - (e + 0)) with (961 - e + 7) by lia.
        rewrite Z.pow_add_r by lia. rewrite Pos2Z.inj_mul. nia.
      * destruct Hq as [_ Hle].
        destruct (Z.le_gt_cases e 961) as [|Hgt]; [lia|].
        rewrite Z.pow_neg_r in Hle by lia. lia.
Qed.

End NoOverflow.

(** ** Streams on which the display returns *)

Section SumBounds.
Variable field : layer -> Z.

Let sum (layers : gmap string layer) : Z :=
  map_fold (fun _ value acc => acc + field value) 0 layers.




End SumBounds.





(** X19: The percentage overflows only for a sum of current sizes above [2^960]
    in absolute value. *)
Theorem percentage_overflow_needs_huge_sum (current_sum current_total : Z) (e : exn) :
  percentage current_sum current_total = Raised e ->
  exn_cls e = OverflowError ->
  2 ^ 960 < Z.abs current_sum.
Proof.
  intros Hraised He.
  destruct (Z.le_gt_cases (Z.abs current_sum) (2 ^ 960)) as [Hle|]; [|lia].
  destruct (Z.eq_dec current_total 0) as [->|Hne].
  - rewrite percentage_zero_total in Hraised. injection Hraised as <-. discriminate He.
  - destruct (percentage_returns current_sum current_total Hne Hle) as (p & Hp).
    congruence.
Qed.

Lemma percentage_overflow_needs_huge_sum_witness : 2 ^ 960 < Z.abs (2 ^ 2000).
Proof.
  apply (percentage_overflow_needs_huge_sum (2 ^ 2000) 1
           (Exn OverflowError "integer division result too large for a float")).
  - vm_compute. reflexivity.
  - reflexivity.
Defined.

(** ** Pulls that fail with another exception *)

(** C5, as stated, fails: here the image is not there locally, its name
    does not start with [samcli/lambda] and the pull fails, with the
    exception of a broken connection; [run] raises that exception, which is
    not a [DockerImagePullFailedException]. *)
Lemma run_broken_pull_without_local_image :
  result (has_image (manager false broken_client_without_image)
            (image (new_container "busybox:latest"))) = Returned false
  /\ String.prefix "samcli/lambda" (image (new_container "busybox:latest")) = false
  /\ result (pull_image (manager false broken_client_without_image)
               (image (new_container "busybox:latest"))) = Raised connection_error
  /\ result (run (manager false broken_client_without_image)
               (new_container "busybox:latest") None false) = Raised connection_error
  /\ isinstance connection_error DockerImagePullFailedException = false
  /\ ~ exists ex,
         result (run (manager false broken_client_without_image)
                   (new_container "busybox:latest") None false)
         = Raised (ExnFrom DockerImagePullFailedException
                     (not_found_message "busybox:latest") ex).
Proof.
  assert (Hrun : result (run (manager false broken_client_without_image)
                           (new_container "busybox:latest") None false)
                 = Raised connection_error) by reflexivity.
  rewrite Hrun. repeat split.
  intros (ex & Hex). discriminate Hex.
Qed.

(** C6, as stated, fails: here the image is there locally,
    [skip_pull_image] is not set, the name neither starts with
    [samcli/lambda] nor is rapid-tagged, the container can be created and
    started, and the pull fails, with the exception of a broken connection;
    [run] does not return: it raises that exception, and the container is
    not called. *)
Lemma run_broken_pull_with_local_image :
  result (has_image (manager false broken_client_with_image)
            (image (new_container "busybox:latest"))) = Returned true
  /\ skip_pull_image (manager false broken_client_with_image) = false
  /\ String.prefix "samcli/lambda" (image (new_container "busybox:latest")) = false
  /\ _is_rapid_image (image (new_container "busybox:latest")) = false
  /\ result (pull_image (manager false broken_client_with_image)
               (image (new_container "busybox:latest"))) = Raised connection_error
  /\ create (new_container "busybox:latest") = Returned tt
  /\ start (new_container "busybox:latest") None = Returned tt
  /\ run (manager false broken_client_with_image)
         (new_container "busybox:latest") None false
     = ([EImagesGet "busybox:latest"; EApiPull "busybox:latest"],
        Raised connection_error)
  /\ result (run (manager false broken_client_with_image)
               (new_container "busybox:latest") None false) <> Returned tt.
Proof.
  assert (Hrun : run (manager false broken_client_with_image)
                     (new_container "busybox:latest") None false
                 = ([EImagesGet "busybox:latest"; EApiPull "busybox:latest"],
                    Raised connection_error)) by (vm_compute; reflexivity).
  rewrite Hrun. repeat split; try reflexivity.
  discriminate.
Qed.
